(** * Laundry-Care-System: order lifecycle and cancellation engine

    A shallow embedding of the service layer of the repository
    ([utils/cancel_order_util.py], [services/worker_service.py],
    [services/customer_service.py], [services/admin_service.py]) over the
    data model of [models.py], followed by the properties of the order
    lifecycle.

    Conventions of the embedding:
    - the relational store is a record of finite maps keyed by primary key;
      a service function is a computation in a state-and-exception monad
      over that store, so that what a raised exception leaves behind in the
      store is a property to be proved and not one built into a type;
    - a [datetime] keeps Python's shape: a wall-clock reading in
      microseconds and an optional UTC offset ([tzinfo is None] for a naive
      value); comparing or subtracting a naive and an aware value raises
      [TypeError] as Python does;
    - the clock ([datetime.now(timezone.utc)]) is an explicit argument;
    - Python floats (price, fee, fee percentage) are binary64 values, the
      kernel's primitive floats, with their rounding, infinities and NaN;
    - the columns [created_at]/[updated_at], which the ORM fills in by
      itself, are not part of the model; of the column constraints, the
      primary keys and the NOT NULL of [Order.address_id] are, foreign
      keys are not. *)

From Stdlib Require Import ZArith String Ascii List Lia Floats.
From stdpp Require Import base option gmap strings pretty.

Import SpecFloat.

Local Open Scope string_scope.
Local Open Scope Z_scope.

(** ** models.py: enumerations *)

Module UserRole.
Inductive t := customer | worker | admin.

#[global] Instance eq_dec : EqDecision t.
Proof. solve_decision. Defined.

(** [member.name] / [member.value]: in this enumeration they coincide. *)
Definition value (r : t) : string :=
match r with
| customer => "customer"
| worker => "worker"
| admin => "admin"
end.

Definition members : list t := [customer; worker; admin].

(** [UserRole[name]]: lookup of a member by its name; [None] stands for
    the [KeyError]. *)
Definition getitem (name : string) : option t :=
  List.find (fun r => String.eqb (value r) name) members.
End UserRole.

Module OrderStatus.
Inductive t :=
| created | claimed | picked_up | in_progress
| delivered | completed | cancelled.

#[global] Instance eq_dec : EqDecision t.
Proof. solve_decision. Defined.

Definition value (st : t) : string :=
match st with
| created => "created"
| claimed => "claimed"
| picked_up => "picked_up"
| in_progress => "in_progress"
| delivered => "delivered"
| completed => "completed"
| cancelled => "cancelled"
end.

Definition members : list t :=
[created; claimed; picked_up; in_progress; delivered; completed; cancelled].

(** [OrderStatus[name]]: lookup of a member by its name; [None] stands for
  the [KeyError]. *)
Definition getitem (name : string) : option t :=
List.find (fun st => String.eqb (value st) name) members.
End OrderStatus.

(** ** Exceptions (utils/exceptions_util.py, and the built-in ones a call
    can meet) *)

Inductive error :=
  | ValidationError (message : string) (field : option string)
  | NotFoundError (message : string)
  | TypeError (message : string)
  | IntegrityError (message : string).

Inductive result (A : Type) :=
  | Ok (a : A)
  | Raise (e : error).
Arguments Ok {A} a.
Arguments Raise {A} e.

Definition is_Ok {A} (r : result A) : bool :=
  match r with Ok _ => true | Raise _ => false end.

Definition is_ValidationError {A} (r : result A) : bool :=
  match r with Raise (ValidationError _ _) => true | _ => false end.

(** ** datetime *)

(** Microseconds, the resolution of [datetime] and [timedelta]. *)
Definition timedelta_hours (h : Z) : Z := h * 3600 * 1000000.

(** [wall] is the reading of the calendar fields, in microseconds from a
    fixed origin; [tzinfo] is [None] for a naive value and [Some off] for an
    aware one whose zone gives the UTC offset [off] at that reading. *)
Record datetime := mk_datetime {
  wall : Z;
  tzinfo : option Z
}.

#[global] Instance datetime_eq_dec : EqDecision datetime.
Proof. solve_decision. Defined.

Definition timezone_utc : Z := 0.

(** [dt.replace(tzinfo=tz)] for a fixed-offset [tz]: the reading is kept. *)
Definition replace_tzinfo (dt : datetime) (off : Z) : datetime :=
  {| wall := wall dt; tzinfo := Some off |}.

(** The instant of an aware value, as microseconds of UTC. *)
Definition utc_instant (w off : Z) : Z := w - off.

(** [dt.astimezone(timezone.utc)] on an aware value. (On a naive value
    Python assumes the machine's local zone; no call site below does
    that, and the value is returned as it is.) *)
Definition astimezone_utc (dt : datetime) : datetime :=
  match tzinfo dt with
  | Some off => {| wall := utc_instant (wall dt) off; tzinfo := Some timezone_utc |}
  | None => dt
  end.

Definition naive_aware_compare : string :=
  "can't compare offset-naive and offset-aware datetimes".
Definition naive_aware_subtract : string :=
  "can't subtract offset-naive and offset-aware datetimes".

(** Ordering of two datetimes: readings when both are naive, instants when
    both are aware, [TypeError] otherwise. *)
Definition datetime_compare (a b : datetime) : result comparison :=
  match tzinfo a, tzinfo b with
  | None, None => Ok (Z.compare (wall a) (wall b))
  | Some oa, Some ob =>
      Ok (Z.compare (utc_instant (wall a) oa) (utc_instant (wall b) ob))
  | _, _ => Raise (TypeError naive_aware_compare)
  end.

Definition datetime_le (a b : datetime) : result bool :=
  match datetime_compare a b with
  | Ok Gt => Ok false
  | Ok _ => Ok true
  | Raise e => Raise e
  end.

Definition datetime_gt (a b : datetime) : result bool :=
  match datetime_compare a b with
  | Ok Gt => Ok true
  | Ok _ => Ok false
  | Raise e => Raise e
  end.

(** [a - b], a [timedelta] in microseconds. *)
Definition datetime_sub (a b : datetime) : result Z :=
  match tzinfo a, tzinfo b with
  | None, None => Ok (wall a - wall b)
  | Some oa, Some ob => Ok (utc_instant (wall a) oa - utc_instant (wall b) ob)
  | _, _ => Raise (TypeError naive_aware_subtract)
  end.

(** [datetime.now(timezone.utc)] when the clock reads [now]. *)
Definition datetime_now_utc (now : Z) : datetime :=
  {| wall := now; tzinfo := Some timezone_utc |}.

(** ** models.py: tables *)

Record User := mk_User {
  user_name : option string;
  user_email : string;
  user_password : string;
  user_phone : string;
  user_role : UserRole.t
}.

Record Customer := mk_Customer {
  assigned_worker_id : option Z;
  (** the [addresses] relationship: ids of the customer's Address rows, in
      the order the collection is loaded *)
  addresses : list Z
}.

Record Order := mk_Order {
  customer_id : Z;
  worker_id : option Z;
  pickup_time : datetime;
  delivery_time : datetime;
  status : OrderStatus.t;
  price : float;
  cancellation_fee : float;
  created_by : Z;
  address_id : Z
}.

Record OrderStatusHistory := mk_OrderStatusHistory {
  history_order_id : Z;
  history_status : OrderStatus.t;
  status_changed_by : Z;
  changed_at : datetime
}.

(** The store: one finite map per table, keyed by the [id] column. *)
Record Store := mk_Store {
  users : gmap Z User;
  customers : gmap Z Customer;
  orders : gmap Z Order;
  order_status_history : gmap Z OrderStatusHistory
}.

Definition set_orders (f : gmap Z Order → gmap Z Order) (s : Store) : Store :=
  {| users := users s;
     customers := customers s;
     orders := f (orders s);
     order_status_history := order_status_history s |}.

(** Attribute assignments on a loaded [Order]. *)
Definition with_status (st : OrderStatus.t) (o : Order) : Order :=
  {| customer_id := customer_id o; worker_id := worker_id o;
     pickup_time := pickup_time o; delivery_time := delivery_time o;
     status := st; price := price o;
     cancellation_fee := cancellation_fee o;
     created_by := created_by o; address_id := address_id o |}.

Definition with_cancellation_fee (fee : float) (o : Order) : Order :=
  {| customer_id := customer_id o; worker_id := worker_id o;
     pickup_time := pickup_time o; delivery_time := delivery_time o;
     status := status o; price := price o;
     cancellation_fee := fee;
     created_by := created_by o; address_id := address_id o |}.

Definition with_worker_id (w : option Z) (o : Order) : Order :=
  {| customer_id := customer_id o; worker_id := w;
     pickup_time := pickup_time o; delivery_time := delivery_time o;
     status := status o; price := price o;
     cancellation_fee := cancellation_fee o;
     created_by := created_by o; address_id := address_id o |}.

Definition set_customers (f : gmap Z Customer → gmap Z Customer) (s : Store) : Store :=
  {| users := users s;
     customers := f (customers s);
     orders := orders s;
     order_status_history := order_status_history s |}.

(** The attribute assignment on a loaded [Customer]. *)
Definition with_assigned_worker_id (w : option Z) (c : Customer) : Customer :=
  {| assigned_worker_id := w; addresses := addresses c |}.

(** ** The monad of a request: store passing with exceptions *)

Definition M (A : Type) : Type := Store → Store * result A.

Definition ret {A} (a : A) : M A := fun s => (s, Ok a).

Definition raise {A} (e : error) : M A := fun s => (s, Raise e).

Definition bind {A B} (m : M A) (k : A → M B) : M B :=
  fun s =>
    match m s with
    | (s', Ok a) => k a s'
    | (s', Raise e) => (s', Raise e)
    end.

Definition lift {A} (r : result A) : M A := fun s => (s, r).

Definition get_store : M Store := fun s => (s, Ok s).

Definition modify_store (f : Store → Store) : M unit := fun s => (f s, Ok tt).

Declare Scope request_scope.
Delimit Scope request_scope with request.
Notation "x <~ m ;; k" := (bind m (fun x => k))
  (at level 100, m at next level, right associativity) : request_scope.
Notation "m ;;; k" := (bind m (fun _ => k))
  (at level 100, right associativity) : request_scope.
Local Open Scope request_scope.

(** ** The persistence layer, as the services use it *)

(** [User.query.get(id)]. *)
Definition User_query_get (id : Z) : M (option User) :=
  s <~ get_store ;; ret (users s !! id).

(** [Order.query.filter_by(id=id, ...).first()]: [id] is the primary key,
    so the row with that key is the only candidate; [p] holds the other
    column conditions of the filter. *)
Definition Order_query_first (id : Z) (p : Order → bool) : M (option Order) :=
  s <~ get_store ;;
  ret (match orders s !! id with
       | Some o => if p o then Some o else None
       | None => None
       end).

(** [Customer.query.filter_by(id=id, ...).first()]. *)
Definition Customer_query_first (id : Z) (p : Customer → bool) : M (option Customer) :=
  s <~ get_store ;;
  ret (match customers s !! id with
       | Some c => if p c then Some c else None
       | None => None
       end).

(** An attribute assignment on the loaded row [id]. The store of the model
    is the database as the request's session sees it, so an assignment
    shows in it at once; the commit that closes the request adds nothing
    to it. *)
Definition Order_setattr (id : Z) (f : Order → Order) : M unit :=
  modify_store (set_orders (alter f id)).

Definition Customer_setattr (id : Z) (f : Customer → Customer) : M unit :=
  modify_store (set_customers (alter f id)).

(** [try: ... except Exception as e: ...]. *)
Definition try_except {A} (body : M A) (handler : error → M A) : M A :=
  fun s =>
    match body s with
    | (s', Ok a) => (s', Ok a)
    | (s', Raise e) => handler e s'
    end.

Definition db_session_commit : M unit := ret tt.

(** The key the store gives to a new Order row: one past the largest key
    in use. *)
Definition max_order_id (m : gmap Z Order) : Z :=
  map_fold (fun k _ acc => Z.max k acc) 0 m.

Definition next_order_id (s : Store) : Z := max_order_id (orders s) + 1.

(** What a [db.DateTime] column holds of a value written to it: the
    column is declared without time zone, so the calendar reading is kept
    and the zone is dropped. *)
Definition column_DateTime (dt : datetime) : datetime :=
  {| wall := wall dt; tzinfo := None |}.

(** The row that an [Order] object becomes when it is written. *)
Definition Order_row (o : Order) : Order :=
  {| customer_id := customer_id o; worker_id := worker_id o;
     pickup_time := column_DateTime (pickup_time o);
     delivery_time := column_DateTime (delivery_time o);
     status := status o; price := price o;
     cancellation_fee := cancellation_fee o;
     created_by := created_by o; address_id := address_id o |}.

(** [db.session.add(order); db.session.commit()], returning [order.id]. *)
Definition db_session_add_order (o : Order) : M Z :=
  s <~ get_store ;;
  let id := next_order_id s in
  modify_store (set_orders (insert id (Order_row o))) ;;;
  ret id.

(** ** Python values the services receive or format *)

(** The [role] argument of [cancel_order]. Its annotation is [UserRole];
    the two routes that call it ([routers/customer_routes.py],
    [routers/admin_routes.py]) pass the [user_role] that
    [utils/role_decorator_util.py] injects, which is the string stored in
    the token's [role] item ([user.role.value] in
    [services/auth_service.py]). Both shapes are values of this type. *)
Inductive role_value :=
  | RoleMember (r : UserRole.t)
  | RoleStr (s : string).

(** [role == member]. [UserRole] derives from [enum.Enum] alone, so a
    member is equal only to itself: a string never equals a member, its
    spelling notwithstanding. *)
Definition role_eq (role : role_value) (member : UserRole.t) : bool :=
  match role with
  | RoleMember r => bool_decide (r = member)
  | RoleStr _ => false
  end.

(** [str(role)], as an f-string renders it. *)
Definition role_str (role : role_value) : string :=
  match role with
  | RoleMember r => "UserRole." +:+ UserRole.value r
  | RoleStr s => s
  end.

Definition option_str (o : option string) : string :=
  match o with
  | Some s => s
  | None => "None"
  end.

(** [str.lower]. Python lower-cases by code point, with the mappings of
    the Unicode character database: the simple mappings, the one expanding
    mapping (U+0130), and the final-sigma rule for U+03A3. A string of the
    model is the UTF-8 form of a Python string, so it is decoded, mapped and
    encoded again. The tables are those of Unicode 14.0.0. *)
Module unicode.

(** Simple lower-case mappings: every [step]-th code point from [lo] to [hi]
    maps to itself plus [delta]. *)
Definition lower_groups : list (N * N * N * Z) :=
  [(65, 90, 1, (32)%Z); (192, 214, 1, (32)%Z); (216, 222, 1, (32)%Z);
   (256, 302, 2, (1)%Z); (306, 310, 2, (1)%Z); (313, 327, 2, (1)%Z);
   (330, 374, 2, (1)%Z); (376, 376, 1, (-121)%Z); (377, 381, 2, (1)%Z);
   (385, 385, 1, (210)%Z); (386, 388, 2, (1)%Z); (390, 390, 1, (206)%Z);
   (391, 391, 1, (1)%Z); (393, 394, 1, (205)%Z); (395, 395, 1, (1)%Z);
   (398, 398, 1, (79)%Z); (399, 399, 1, (202)%Z); (400, 400, 1, (203)%Z);
   (401, 401, 1, (1)%Z); (403, 403, 1, (205)%Z); (404, 404, 1, (207)%Z);
   (406, 406, 1, (211)%Z); (407, 407, 1, (209)%Z); (408, 408, 1, (1)%Z);
   (412, 412, 1, (211)%Z); (413, 413, 1, (213)%Z); (415, 415, 1, (214)%Z);
   (416, 420, 2, (1)%Z); (422, 422, 1, (218)%Z); (423, 423, 1, (1)%Z);
   (425, 425, 1, (218)%Z); (428, 428, 1, (1)%Z); (430, 430, 1, (218)%Z);
   (431, 431, 1, (1)%Z); (433, 434, 1, (217)%Z); (435, 437, 2, (1)%Z);
   (439, 439, 1, (219)%Z); (440, 440, 1, (1)%Z); (444, 444, 1, (1)%Z);
   (452, 452, 1, (2)%Z); (453, 453, 1, (1)%Z); (455, 455, 1, (2)%Z);
   (456, 456, 1, (1)%Z); (458, 458, 1, (2)%Z); (459, 475, 2, (1)%Z);
   (478, 494, 2, (1)%Z); (497, 497, 1, (2)%Z); (498, 500, 2, (1)%Z);
   (502, 502, 1, (-97)%Z); (503, 503, 1, (-56)%Z); (504, 542, 2, (1)%Z);
   (544, 544, 1, (-130)%Z); (546, 562, 2, (1)%Z); (570, 570, 1, (10795)%Z);
   (571, 571, 1, (1)%Z); (573, 573, 1, (-163)%Z); (574, 574, 1, (10792)%Z);
   (577, 577, 1, (1)%Z); (579, 579, 1, (-195)%Z); (580, 580, 1, (69)%Z);
   (581, 581, 1, (71)%Z); (582, 590, 2, (1)%Z); (880, 882, 2, (1)%Z);
   (886, 886, 1, (1)%Z); (895, 895, 1, (116)%Z); (902, 902, 1, (38)%Z);
   (904, 906, 1, (37)%Z); (908, 908, 1, (64)%Z); (910, 911, 1, (63)%Z);
   (913, 929, 1, (32)%Z); (932, 939, 1, (32)%Z); (975, 975, 1, (8)%Z);
   (984, 1006, 2, (1)%Z); (1012, 1012, 1, (-60)%Z); (1015, 1015, 1, (1)%Z);
   (1017, 1017, 1, (-7)%Z); (1018, 1018, 1, (1)%Z); (1021, 1023, 1, (-130)%Z);
   (1024, 1039, 1, (80)%Z); (1040, 1071, 1, (32)%Z); (1120, 1152, 2, (1)%Z);
   (1162, 1214, 2, (1)%Z); (1216, 1216, 1, (15)%Z); (1217, 1229, 2, (1)%Z);
   (1232, 1326, 2, (1)%Z); (1329, 1366, 1, (48)%Z); (4256, 4293, 1, (7264)%Z);
   (4295, 4295, 1, (7264)%Z); (4301, 4301, 1, (7264)%Z);
   (5024, 5103, 1, (38864)%Z); (5104, 5109, 1, (8)%Z);
   (7312, 7354, 1, (-3008)%Z); (7357, 7359, 1, (-3008)%Z);
   (7680, 7828, 2, (1)%Z); (7838, 7838, 1, (-7615)%Z); (7840, 7934, 2, (1)%Z);
   (7944, 7951, 1, (-8)%Z); (7960, 7965, 1, (-8)%Z); (7976, 7983, 1, (-8)%Z);
   (7992, 7999, 1, (-8)%Z); (8008, 8013, 1, (-8)%Z); (8025, 8031, 2, (-8)%Z);
   (8040, 8047, 1, (-8)%Z); (8072, 8079, 1, (-8)%Z); (8088, 8095, 1, (-8)%Z);
   (8104, 8111, 1, (-8)%Z); (8120, 8121, 1, (-8)%Z); (8122, 8123, 1, (-74)%Z);
   (8124, 8124, 1, (-9)%Z); (8136, 8139, 1, (-86)%Z); (8140, 8140, 1, (-9)%Z);
   (8152, 8153, 1, (-8)%Z); (8154, 8155, 1, (-100)%Z);
   (8168, 8169, 1, (-8)%Z); (8170, 8171, 1, (-112)%Z);
   (8172, 8172, 1, (-7)%Z); (8184, 8185, 1, (-128)%Z);
   (8186, 8187, 1, (-126)%Z); (8188, 8188, 1, (-9)%Z);
   (8486, 8486, 1, (-7517)%Z); (8490, 8490, 1, (-8383)%Z);
   (8491, 8491, 1, (-8262)%Z); (8498, 8498, 1, (28)%Z);
   (8544, 8559, 1, (16)%Z); (8579, 8579, 1, (1)%Z); (9398, 9423, 1, (26)%Z);
   (11264, 11311, 1, (48)%Z); (11360, 11360, 1, (1)%Z);
   (11362, 11362, 1, (-10743)%Z); (11363, 11363, 1, (-3814)%Z);
   (11364, 11364, 1, (-10727)%Z); (11367, 11371, 2, (1)%Z);
   (11373, 11373, 1, (-10780)%Z); (11374, 11374, 1, (-10749)%Z);
   (11375, 11375, 1, (-10783)%Z); (11376, 11376, 1, (-10782)%Z);
   (11378, 11378, 1, (1)%Z); (11381, 11381, 1, (1)%Z);
   (11390, 11391, 1, (-10815)%Z); (11392, 11490, 2, (1)%Z);
   (11499, 11501, 2, (1)%Z); (11506, 11506, 1, (1)%Z);
   (42560, 42604, 2, (1)%Z); (42624, 42650, 2, (1)%Z);
   (42786, 42798, 2, (1)%Z); (42802, 42862, 2, (1)%Z);
   (42873, 42875, 2, (1)%Z); (42877, 42877, 1, (-35332)%Z);
   (42878, 42886, 2, (1)%Z); (42891, 42891, 1, (1)%Z);
   (42893, 42893, 1, (-42280)%Z); (42896, 42898, 2, (1)%Z);
   (42902, 42920, 2, (1)%Z); (42922, 42922, 1, (-42308)%Z);
   (42923, 42923, 1, (-42319)%Z); (42924, 42924, 1, (-42315)%Z);
   (42925, 42925, 1, (-42305)%Z); (42926, 42926, 1, (-42308)%Z);
   (42928, 42928, 1, (-42258)%Z); (42929, 42929, 1, (-42282)%Z);
   (42930, 42930, 1, (-42261)%Z); (42931, 42931, 1, (928)%Z);
   (42932, 42946, 2, (1)%Z); (42948, 42948, 1, (-48)%Z);
   (42949, 42949, 1, (-42307)%Z); (42950, 42950, 1, (-35384)%Z);
   (42951, 42953, 2, (1)%Z); (42960, 42960, 1, (1)%Z);
   (42966, 42968, 2, (1)%Z); (42997, 42997, 1, (1)%Z);
   (65313, 65338, 1, (32)%Z); (66560, 66599, 1, (40)%Z);
   (66736, 66771, 1, (40)%Z); (66928, 66938, 1, (39)%Z);
   (66940, 66954, 1, (39)%Z); (66956, 66962, 1, (39)%Z);
   (66964, 66965, 1, (39)%Z); (68736, 68786, 1, (64)%Z);
   (71840, 71871, 1, (32)%Z); (93760, 93791, 1, (32)%Z);
   (125184, 125217, 1, (34)%Z)]%N.

(** Code points that are cased and not case-ignorable. *)
Definition cased_ranges : list (N * N) :=
  [(65, 90); (97, 122); (170, 170); (181, 181); (186, 186); (192, 214);
   (216, 246); (248, 442); (444, 447); (452, 659); (661, 687); (880, 883);
   (886, 887); (891, 893); (895, 895); (902, 902); (904, 906); (908, 908);
   (910, 929); (931, 1013); (1015, 1153); (1162, 1327); (1329, 1366);
   (1376, 1416); (4256, 4293); (4295, 4295); (4301, 4301); (4304, 4346);
   (4349, 4351); (5024, 5109); (5112, 5117); (7296, 7304); (7312, 7354);
   (7357, 7359); (7424, 7467); (7531, 7543); (7545, 7578); (7680, 7957);
   (7960, 7965); (7968, 8005); (8008, 8013); (8016, 8023); (8025, 8025);
   (8027, 8027); (8029, 8029); (8031, 8061); (8064, 8116); (8118, 8124);
   (8126, 8126); (8130, 8132); (8134, 8140); (8144, 8147); (8150, 8155);
   (8160, 8172); (8178, 8180); (8182, 8188); (8450, 8450); (8455, 8455);
   (8458, 8467); (8469, 8469); (8473, 8477); (8484, 8484); (8486, 8486);
   (8488, 8488); (8490, 8493); (8495, 8500); (8505, 8505); (8508, 8511);
   (8517, 8521); (8526, 8526); (8544, 8575); (8579, 8580); (9398, 9449);
   (11264, 11387); (11390, 11492); (11499, 11502); (11506, 11507);
   (11520, 11557); (11559, 11559); (11565, 11565); (42560, 42605);
   (42624, 42651); (42786, 42863); (42865, 42887); (42891, 42894);
   (42896, 42954); (42960, 42961); (42963, 42963); (42965, 42969);
   (42997, 42998); (43002, 43002); (43824, 43866); (43872, 43880);
   (43888, 43967); (64256, 64262); (64275, 64279); (65313, 65338);
   (65345, 65370); (66560, 66639); (66736, 66771); (66776, 66811);
   (66928, 66938); (66940, 66954); (66956, 66962); (66964, 66965);
   (66967, 66977); (66979, 66993); (66995, 67001); (67003, 67004);
   (68736, 68786); (68800, 68850); (71840, 71903); (93760, 93823);
   (119808, 119892); (119894, 119964); (119966, 119967); (119970, 119970);
   (119973, 119974); (119977, 119980); (119982, 119993); (119995, 119995);
   (119997, 120003); (120005, 120069); (120071, 120074); (120077, 120084);
   (120086, 120092); (120094, 120121); (120123, 120126); (120128, 120132);
   (120134, 120134); (120138, 120144); (120146, 120485); (120488, 120512);
   (120514, 120538); (120540, 120570); (120572, 120596); (120598, 120628);
   (120630, 120654); (120656, 120686); (120688, 120712); (120714, 120744);
   (120746, 120770); (120772, 120779); (122624, 122633); (122635, 122654);
   (125184, 125251); (127280, 127305); (127312, 127337); (127344, 127369)]%N.

(** Case-ignorable code points. *)
Definition case_ignorable_ranges : list (N * N) :=
  [(39, 39); (46, 46); (58, 58); (94, 94); (96, 96); (168, 168); (173, 173);
   (175, 175); (180, 180); (183, 184); (688, 879); (884, 885); (890, 890);
   (900, 901); (903, 903); (1155, 1161); (1369, 1369); (1375, 1375);
   (1425, 1469); (1471, 1471); (1473, 1474); (1476, 1477); (1479, 1479);
   (1524, 1524); (1536, 1541); (1552, 1562); (1564, 1564); (1600, 1600);
   (1611, 1631); (1648, 1648); (1750, 1757); (1759, 1768); (1770, 1773);
   (1807, 1807); (1809, 1809); (1840, 1866); (1958, 1968); (2027, 2037);
   (2042, 2042); (2045, 2045); (2070, 2093); (2137, 2139); (2184, 2184);
   (2192, 2193); (2200, 2207); (2249, 2306); (2362, 2362); (2364, 2364);
   (2369, 2376); (2381, 2381); (2385, 2391); (2402, 2403); (2417, 2417);
   (2433, 2433); (2492, 2492); (2497, 2500); (2509, 2509); (2530, 2531);
   (2558, 2558); (2561, 2562); (2620, 2620); (2625, 2626); (2631, 2632);
   (2635, 2637); (2641, 2641); (2672, 2673); (2677, 2677); (2689, 2690);
   (2748, 2748); (2753, 2757); (2759, 2760); (2765, 2765); (2786, 2787);
   (2810, 2815); (2817, 2817); (2876, 2876); (2879, 2879); (2881, 2884);
   (2893, 2893); (2901, 2902); (2914, 2915); (2946, 2946); (3008, 3008);
   (3021, 3021); (3072, 3072); (3076, 3076); (3132, 3132); (3134, 3136);
   (3142, 3144); (3146, 3149); (3157, 3158); (3170, 3171); (3201, 3201);
   (3260, 3260); (3263, 3263); (3270, 3270); (3276, 3277); (3298, 3299);
   (3328, 3329); (3387, 3388); (3393, 3396); (3405, 3405); (3426, 3427);
   (3457, 3457); (3530, 3530); (3538, 3540); (3542, 3542); (3633, 3633);
   (3636, 3642); (3654, 3662); (3761, 3761); (3764, 3772); (3782, 3782);
   (3784, 3789); (3864, 3865); (3893, 3893); (3895, 3895); (3897, 3897);
   (3953, 3966); (3968, 3972); (3974, 3975); (3981, 3991); (3993, 4028);
   (4038, 4038); (4141, 4144); (4146, 4151); (4153, 4154); (4157, 4158);
   (4184, 4185); (4190, 4192); (4209, 4212); (4226, 4226); (4229, 4230);
   (4237, 4237); (4253, 4253); (4348, 4348); (4957, 4959); (5906, 5908);
   (5938, 5939); (5970, 5971); (6002, 6003); (6068, 6069); (6071, 6077);
   (6086, 6086); (6089, 6099); (6103, 6103); (6109, 6109); (6155, 6159);
   (6211, 6211); (6277, 6278); (6313, 6313); (6432, 6434); (6439, 6440);
   (6450, 6450); (6457, 6459); (6679, 6680); (6683, 6683); (6742, 6742);
   (6744, 6750); (6752, 6752); (6754, 6754); (6757, 6764); (6771, 6780);
   (6783, 6783); (6823, 6823); (6832, 6862); (6912, 6915); (6964, 6964);
   (6966, 6970); (6972, 6972); (6978, 6978); (7019, 7027); (7040, 7041);
   (7074, 7077); (7080, 7081); (7083, 7085); (7142, 7142); (7144, 7145);
   (7149, 7149); (7151, 7153); (7212, 7219); (7222, 7223); (7288, 7293);
   (7376, 7378); (7380, 7392); (7394, 7400); (7405, 7405); (7412, 7412);
   (7416, 7417); (7468, 7530); (7544, 7544); (7579, 7679); (8125, 8125);
   (8127, 8129); (8141, 8143); (8157, 8159); (8173, 8175); (8189, 8190);
   (8203, 8207); (8216, 8217); (8228, 8228); (8231, 8231); (8234, 8238);
   (8288, 8292); (8294, 8303); (8305, 8305); (8319, 8319); (8336, 8348);
   (8400, 8432); (11388, 11389); (11503, 11505); (11631, 11631);
   (11647, 11647); (11744, 11775); (11823, 11823); (12293, 12293);
   (12330, 12333); (12337, 12341); (12347, 12347); (12441, 12446);
   (12540, 12542); (40981, 40981); (42232, 42237); (42508, 42508);
   (42607, 42610); (42612, 42621); (42623, 42623); (42652, 42655);
   (42736, 42737); (42752, 42785); (42864, 42864); (42888, 42890);
   (42994, 42996); (43000, 43001); (43010, 43010); (43014, 43014);
   (43019, 43019); (43045, 43046); (43052, 43052); (43204, 43205);
   (43232, 43249); (43263, 43263); (43302, 43309); (43335, 43345);
   (43392, 43394); (43443, 43443); (43446, 43449); (43452, 43453);
   (43471, 43471); (43493, 43494); (43561, 43566); (43569, 43570);
   (43573, 43574); (43587, 43587); (43596, 43596); (43632, 43632);
   (43644, 43644); (43696, 43696); (43698, 43700); (43703, 43704);
   (43710, 43711); (43713, 43713); (43741, 43741); (43756, 43757);
   (43763, 43764); (43766, 43766); (43867, 43871); (43881, 43883);
   (44005, 44005); (44008, 44008); (44013, 44013); (64286, 64286);
   (64434, 64450); (65024, 65039); (65043, 65043); (65056, 65071);
   (65106, 65106); (65109, 65109); (65279, 65279); (65287, 65287);
   (65294, 65294); (65306, 65306); (65342, 65342); (65344, 65344);
   (65392, 65392); (65438, 65439); (65507, 65507); (65529, 65531);
   (66045, 66045); (66272, 66272); (66422, 66426); (67456, 67461);
   (67463, 67504); (67506, 67514); (68097, 68099); (68101, 68102);
   (68108, 68111); (68152, 68154); (68159, 68159); (68325, 68326);
   (68900, 68903); (69291, 69292); (69446, 69456); (69506, 69509);
   (69633, 69633); (69688, 69702); (69744, 69744); (69747, 69748);
   (69759, 69761); (69811, 69814); (69817, 69818); (69821, 69821);
   (69826, 69826); (69837, 69837); (69888, 69890); (69927, 69931);
   (69933, 69940); (70003, 70003); (70016, 70017); (70070, 70078);
   (70089, 70092); (70095, 70095); (70191, 70193); (70196, 70196);
   (70198, 70199); (70206, 70206); (70367, 70367); (70371, 70378);
   (70400, 70401); (70459, 70460); (70464, 70464); (70502, 70508);
   (70512, 70516); (70712, 70719); (70722, 70724); (70726, 70726);
   (70750, 70750); (70835, 70840); (70842, 70842); (70847, 70848);
   (70850, 70851); (71090, 71093); (71100, 71101); (71103, 71104);
   (71132, 71133); (71219, 71226); (71229, 71229); (71231, 71232);
   (71339, 71339); (71341, 71341); (71344, 71349); (71351, 71351);
   (71453, 71455); (71458, 71461); (71463, 71467); (71727, 71735);
   (71737, 71738); (71995, 71996); (71998, 71998); (72003, 72003);
   (72148, 72151); (72154, 72155); (72160, 72160); (72193, 72202);
   (72243, 72248); (72251, 72254); (72263, 72263); (72273, 72278);
   (72281, 72283); (72330, 72342); (72344, 72345); (72752, 72758);
   (72760, 72765); (72767, 72767); (72850, 72871); (72874, 72880);
   (72882, 72883); (72885, 72886); (73009, 73014); (73018, 73018);
   (73020, 73021); (73023, 73029); (73031, 73031); (73104, 73105);
   (73109, 73109); (73111, 73111); (73459, 73460); (78896, 78904);
   (92912, 92916); (92976, 92982); (92992, 92995); (94031, 94031);
   (94095, 94111); (94176, 94177); (94179, 94180); (110576, 110579);
   (110581, 110587); (110589, 110590); (113821, 113822); (113824, 113827);
   (118528, 118573); (118576, 118598); (119143, 119145); (119155, 119170);
   (119173, 119179); (119210, 119213); (119362, 119364); (121344, 121398);
   (121403, 121452); (121461, 121461); (121476, 121476); (121499, 121503);
   (121505, 121519); (122880, 122886); (122888, 122904); (122907, 122913);
   (122915, 122916); (122918, 122922); (123184, 123197); (123566, 123566);
   (123628, 123631); (125136, 125142); (125252, 125259); (127995, 127999);
   (917505, 917505); (917536, 917631); (917760, 917999)]%N.

Definition in_ranges (ranges : list (N * N)) (c : N) : bool :=
  existsb (fun r => ((fst r <=? c) && (c <=? snd r))%N) ranges.

Definition is_cased (c : N) : bool := in_ranges cased_ranges c.

Definition is_case_ignorable (c : N) : bool := in_ranges case_ignorable_ranges c.

Definition in_group (c : N) (g : N * N * N * Z) : bool :=
  let '(lo, hi, step, _) := g in
  ((lo <=? c) && (c <=? hi) && ((c - lo) mod step =? 0))%N.

Definition to_lower_simple (c : N) : N :=
  match List.find (in_group c) lower_groups with
  | Some (_, _, _, delta) => Z.to_N (Z.of_N c + delta)
  | None => c
  end.

(** The full mapping: U+0130 lower-cases to U+0069 U+0307. *)
Definition to_lower_full (c : N) : list N :=
  if (c =? 304)%N then [105; 775]%N else [to_lower_simple c].

(** A decoded string: code points, and bytes that are not part of any
    encoded code point (no Python string encodes to such bytes; they are
    kept as they are). Surrogate code points decode and encode like the
    other three-byte ones. *)
Inductive uchar :=
  | CodePoint (c : N)
  | RawByte (b : ascii).

Definition is_continuation (n : N) : bool := ((128 <=? n) && (n <=? 191))%N.

(** The code point that starts at the head of [s], and the number of its
    bytes. *)
Definition decode_at (s : string) : option (N * nat) :=
  match s with
  | EmptyString => None
  | String b0 r0 =>
      let n0 := N_of_ascii b0 in
      if (n0 <? 128)%N then Some (n0, 1%nat)
      else if ((194 <=? n0) && (n0 <=? 223))%N then
        match r0 with
        | String b1 _ =>
            let n1 := N_of_ascii b1 in
            if is_continuation n1
            then Some ((n0 - 192) * 64 + (n1 - 128), 2%nat)%N
            else None
        | _ => None
        end
      else if ((224 <=? n0) && (n0 <=? 239))%N then
        match r0 with
        | String b1 (String b2 _) =>
            let n1 := N_of_ascii b1 in
            let n2 := N_of_ascii b2 in
            let c := ((n0 - 224) * 4096 + (n1 - 128) * 64 + (n2 - 128))%N in
            if is_continuation n1 && is_continuation n2 && (2048 <=? c)%N
            then Some (c, 3%nat)
            else None
        | _ => None
        end
      else if ((240 <=? n0) && (n0 <=? 244))%N then
        match r0 with
        | String b1 (String b2 (String b3 _)) =>
            let n1 := N_of_ascii b1 in
            let n2 := N_of_ascii b2 in
            let n3 := N_of_ascii b3 in
            let c := ((n0 - 240) * 262144 + (n1 - 128) * 4096
                      + (n2 - 128) * 64 + (n3 - 128))%N in
            if is_continuation n1 && is_continuation n2 && is_continuation n3
               && (65536 <=? c)%N && (c <=? 1114111)%N
            then Some (c, 4%nat)
            else None
        | _ => None
        end
      else None
  end.

(** [skip] bytes of the code point decoded last are still to be passed. *)
Fixpoint decode_from (skip : nat) (s : string) : list uchar :=
  match s with
  | EmptyString => []
  | String b rest =>
      match skip with
      | S k => decode_from k rest
      | O =>
          match decode_at s with
          | Some (c, len) => CodePoint c :: decode_from (Nat.pred len) rest
          | None => RawByte b :: decode_from 0 rest
          end
      end
  end.

Definition decode (s : string) : list uchar := decode_from 0 s.

Definition byte (n : N) : ascii := ascii_of_N n.

Definition encode_code_point (c : N) : string :=
  if (c <? 128)%N then String (byte c) EmptyString
  else if (c <? 2048)%N then
    String (byte (192 + c / 64)) (String (byte (128 + c mod 64)) EmptyString)
  else if (c <? 65536)%N then
    String (byte (224 + c / 4096))
      (String (byte (128 + (c / 64) mod 64))
         (String (byte (128 + c mod 64)) EmptyString))
  else
    String (byte (240 + c / 262144))
      (String (byte (128 + (c / 4096) mod 64))
         (String (byte (128 + (c / 64) mod 64))
            (String (byte (128 + c mod 64)) EmptyString))).

Fixpoint encode (l : list uchar) : string :=
  match l with
  | [] => EmptyString
  | CodePoint c :: rest => encode_code_point c +:+ encode rest
  | RawByte b :: rest => String b (encode rest)
  end.

Definition cased (u : uchar) : bool :=
  match u with
  | CodePoint c => is_cased c
  | RawByte _ => false
  end.

Definition case_ignorable (u : uchar) : bool :=
  match u with
  | CodePoint c => is_case_ignorable c
  | RawByte _ => false
  end.

Fixpoint skip_case_ignorable (l : list uchar) : list uchar :=
  match l with
  | [] => []
  | u :: rest => if case_ignorable u then skip_case_ignorable rest else l
  end.

(** U+03A3 is a final sigma when, case-ignorable characters aside, a cased
    character comes before it and none comes after it. [before] holds the
    characters before it, nearest first. *)
Definition final_sigma (before after : list uchar) : bool :=
  match skip_case_ignorable before with
  | [] => false
  | u :: _ =>
      cased u
      && match skip_case_ignorable after with
         | [] => true
         | v :: _ => negb (cased v)
         end
  end.

Fixpoint lower_from (before : list uchar) (l : list uchar) : list uchar :=
  match l with
  | [] => []
  | u :: rest =>
      match u with
      | CodePoint c =>
          if (c =? 931)%N
          then [CodePoint (if final_sigma before rest then 962 else 963)%N]
          else List.map CodePoint (to_lower_full c)
      | RawByte _ => [u]
      end ++ lower_from (u :: before) rest
  end.

Definition lower (s : string) : string := encode (lower_from [] (decode s)).

End unicode.

(** The lower-casing of a string of ASCII characters: only A to Z
    change. *)
Definition ascii_lower (c : ascii) : ascii :=
  let n := nat_of_ascii c in
  if ((65 <=? n)%nat && (n <=? 90)%nat)%bool then ascii_of_nat (n + 32) else c.

Fixpoint ascii_str_lower (s : string) : string :=
  match s with
  | EmptyString => EmptyString
  | String c rest => String (ascii_lower c) (ascii_str_lower rest)
  end.

Fixpoint is_ascii_str (s : string) : bool :=
  match s with
  | EmptyString => true
  | String c rest => (nat_of_ascii c <? 128)%nat && is_ascii_str rest
  end.

(** [s.lower()]. *)
Definition str_lower (s : string) : string :=
  if is_ascii_str s then ascii_str_lower s else unicode.lower s.

(** ** Response bodies ([jsonify]) *)

Record CancelResponse := mk_CancelResponse {
  cancel_message : string;
  cancel_cancellation_fee : float
}.

Record OrderResponse := mk_OrderResponse {
  order_message : string;
  order_order_id : Z
}.

Record StatusResponse := mk_StatusResponse {
  status_message : string;
  status_order_id : Z;
  status_status : string
}.

Record UnclaimedOrder := mk_UnclaimedOrder {
  unclaimed_order_id : Z;
  unclaimed_pickup_time : datetime;
  unclaimed_delivery_time : datetime;
  unclaimed_price : float;
  unclaimed_customer_id : Z
}.

Record MessageResponse := mk_MessageResponse {
  message_message : string
}.

Record CustomerOrderRow := mk_CustomerOrderRow {
  row_order_id : Z;
  row_pickup_time : datetime;
  row_delivery_time : datetime;
  row_status : string;
  row_price : float;
  row_worker_id : option Z
}.

Record AdminOrderRow := mk_AdminOrderRow {
  admin_row_order_id : Z;
  admin_row_customer_id : Z;
  admin_row_worker_id : option Z;
  admin_row_pickup_time : datetime;
  admin_row_delivery_time : datetime;
  admin_row_status : string;
  admin_row_price : float;
  admin_row_cancellation_fee : float
}.

(** What a route answers with: one of the bodies above, or the
    [{"error": ...}] object. *)
Inductive route_body :=
  | ErrorJson (error_message : string)
  | CancelJson (r : CancelResponse)
  | OrderJson (r : OrderResponse)
  | StatusJson (r : StatusResponse)
  | UnclaimedJson (rows : list UnclaimedOrder)
  | MessageJson (r : MessageResponse).

(** [str(e)]: the exceptions of [utils/exceptions_util.py] hand their
    message to [Exception.__init__]. *)
Definition error_str (e : error) : string :=
  match e with
  | ValidationError message _ => message
  | NotFoundError message => message
  | TypeError message => message
  | IntegrityError message => message
  end.

(** ** utils/cancel_order_util.py *)

Module cancel_order_util.
Section cancel_order.

(** [core/constants.py] is not among the sources: the value of
    [constants.fee_percentage] is a parameter. *)
Variable fee_percentage : float.

(** [ZoneInfo("Asia/Karachi")]: the UTC offset, in microseconds, that
    the time-zone database gives for a wall-clock reading. *)
Variable karachi_utcoffset : Z → Z.

(** Lines 31-36: a naive pickup time is read as Karachi time and
    converted to UTC; an aware one is kept. *)
Definition normalize_pickup_time (pickup_time : datetime) : datetime :=
  match tzinfo pickup_time with
  | None =>
      let pickup_time :=
        replace_tzinfo pickup_time (karachi_utcoffset (wall pickup_time)) in
      astimezone_utc pickup_time
  | Some _ => pickup_time
  end.

(** Lines 23-27: the filter of the order query. *)
Definition order_filter (user_id : Z) (role : role_value) (o : Order) : bool :=
  if role_eq role UserRole.customer
  then bool_decide (customer_id o = user_id)
  else true.

Definition cancel_order (now : Z) (user_id order_id : Z) (role : role_value)
  : M (CancelResponse * Z) :=
  user <~ User_query_get user_id ;;
  match user with
  | None => raise (NotFoundError "User not found")
  | Some user =>
      order <~ Order_query_first order_id (order_filter user_id role) ;;
      match order with
      | None => raise (NotFoundError "Order not found")
      | Some order =>
          let pickup_time := normalize_pickup_time (pickup_time order) in
          let now := datetime_now_utc now in
          past <~ lift (datetime_gt now pickup_time) ;;
          if (past : bool) then
            raise (ValidationError "Cannot cancel order after pickup time"
                                   (Some "pickup_time"))
          else
            remaining <~ lift (datetime_sub pickup_time now) ;;
            let cancellation_fee :=
              if remaining <=? timedelta_hours 1
              then ((fee_percentage / 100) * price order)%float
              else 0%float in
            Order_setattr order_id (with_status OrderStatus.cancelled) ;;;
            Order_setattr order_id (with_cancellation_fee cancellation_fee) ;;;
            db_session_commit ;;;
            let msg :=
              "Order cancelled by " +:+ role_str role +:+ " "
              +:+ option_str (user_name user)
              +:+ " (ID: " +:+ pretty user_id +:+ ")" in
            ret ({| cancel_message := msg;
                    cancel_cancellation_fee := cancellation_fee |}, 200)
      end
  end.

End cancel_order.
End cancel_order_util.

(** ** services/worker_service.py *)

Module worker_service.

(** The filter of [list_unclaimed_orders]: no worker, status [created]. *)
Definition unclaimed (o : Order) : bool :=
  bool_decide (worker_id o = None)
  && bool_decide (status o = OrderStatus.created).

Definition list_unclaimed_orders : M (list UnclaimedOrder * Z) :=
  s <~ get_store ;;
  let rows := List.filter (fun kv => unclaimed (snd kv)) (map_to_list (orders s)) in
  ret (List.map (fun kv =>
                   {| unclaimed_order_id := fst kv;
                      unclaimed_pickup_time := pickup_time (snd kv);
                      unclaimed_delivery_time := delivery_time (snd kv);
                      unclaimed_price := price (snd kv);
                      unclaimed_customer_id := customer_id (snd kv) |}) rows,
       200).

Definition claim_order (worker_id' order_id : Z) : M (OrderResponse * Z) :=
  order <~ Order_query_first order_id
             (fun o => bool_decide (worker_id o = None)) ;;
  match order with
  | None => raise (NotFoundError "Order not available for claiming")
  | Some _ =>
      Order_setattr order_id (with_worker_id (Some worker_id')) ;;;
      Order_setattr order_id (with_status OrderStatus.claimed) ;;;
      db_session_commit ;;;
      ret ({| order_message := "Order claimed successfully";
              order_order_id := order_id |}, 200)
  end.

Definition update_order_status (worker_id' order_id : Z) (status' : string)
  : M (StatusResponse * Z) :=
  order <~ Order_query_first order_id
             (fun o => bool_decide (worker_id o = Some worker_id')) ;;
  match order with
  | None => raise (NotFoundError "Order not found or not assigned to this worker")
  | Some _ =>
      match OrderStatus.getitem (str_lower status') with
      | None => raise (ValidationError "Invalid status" (Some "status"))
      | Some new_status =>
          Order_setattr order_id (with_status new_status) ;;;
          db_session_commit ;;;
          ret ({| status_message := "Order status updated";
                  status_order_id := order_id;
                  status_status := OrderStatus.value new_status |}, 200)
      end
  end.

(** The [address_id] column is declared [nullable=False]: the commit of
    an order built with [address_id=None] (a customer without address)
    is refused by the store. *)
Definition create_order_for_customer
    (worker_id' customer_id' : Z) (pickup_time' delivery_time' : datetime)
    (price' : float) : M (OrderResponse * Z) :=
  late <~ lift (datetime_le delivery_time' pickup_time') ;;
  if (late : bool) then
    raise (ValidationError "Delivery time must be after pickup time" None)
  else
    customer <~ Customer_query_first customer_id'
                  (fun c => bool_decide (assigned_worker_id c = Some worker_id')) ;;
    match customer with
    | None => raise (ValidationError "Customer not assigned to this worker" None)
    | Some customer =>
        match addresses customer with
        | [] => raise (IntegrityError "NOT NULL constraint failed: order.address_id")
        | address :: _ =>
            id <~ db_session_add_order
                    {| customer_id := customer_id';
                       worker_id := Some worker_id';
                       pickup_time := pickup_time';
                       delivery_time := delivery_time';
                       status := OrderStatus.created;
                       price := price';
                       cancellation_fee := 0%float;
                       created_by := worker_id';
                       address_id := address |} ;;
            ret ({| order_message := "Order created by worker";
                    order_order_id := id |}, 201)
        end
    end.

End worker_service.

(** ** services/customer_service.py *)

Module customer_service.

(** Lines 74-78: a naive value is tagged as UTC, reading unchanged. *)
Definition ensure_aware (dt : datetime) : datetime :=
  match tzinfo dt with
  | None => replace_tzinfo dt timezone_utc
  | Some _ => dt
  end.

Definition create_order_for_customer
    (now : Z) (customer_id' : Z) (pickup_time' delivery_time' : datetime)
    (price' : float) (address_id' : Z) : M (OrderResponse * Z) :=
  let now := datetime_now_utc now in
  let pickup_time' := ensure_aware pickup_time' in
  let delivery_time' := ensure_aware delivery_time' in
  early <~ lift (datetime_le pickup_time' now) ;;
  if (early : bool) then
    raise (ValidationError "Pickup time must be in the future" (Some "pickup_time"))
  else
    late <~ lift (datetime_le delivery_time' pickup_time') ;;
    if (late : bool) then
      raise (ValidationError "Delivery time must be after pickup time"
                             (Some "delivery_time"))
    else
      id <~ db_session_add_order
              {| customer_id := customer_id';
                 worker_id := None;
                 pickup_time := pickup_time';
                 delivery_time := delivery_time';
                 status := OrderStatus.created;
                 price := price';
                 cancellation_fee := 0%float;
                 created_by := customer_id';
                 address_id := address_id' |} ;;
      ret ({| order_message := "Order created successfully";
              order_order_id := id |}, 201).


Section list_customer_orders.

(** [order_by(Order.created_at.desc())]: the column is outside the model,
    so the order in which the rows come back is a parameter. *)
Variable by_created_at_desc : list (Z * Order) → list (Z * Order).

Definition list_customer_orders (customer_id' : Z) : M (list CustomerOrderRow * Z) :=
  s <~ get_store ;;
  let orders' :=
    by_created_at_desc
      (List.filter (fun kv => bool_decide (customer_id (snd kv) = customer_id'))
                   (map_to_list (orders s))) in
  ret (List.map (fun kv =>
                   {| row_order_id := fst kv;
                      row_pickup_time := pickup_time (snd kv);
                      row_delivery_time := delivery_time (snd kv);
                      row_status := OrderStatus.value (status (snd kv));
                      row_price := price (snd kv);
                      row_worker_id := worker_id (snd kv) |}) orders',
       200).

End list_customer_orders.

End customer_service.

(** ** services/admin_service.py *)

Module admin_service.

Definition create_order_for_customer
    (customer_id' : Z) (worker_id' : option Z)
    (pickup_time' delivery_time' : datetime)
    (price' : float) (created_by' address_id' : Z) : M (OrderResponse * Z) :=
  late <~ lift (datetime_le delivery_time' pickup_time') ;;
  if (late : bool) then
    raise (ValidationError "Delivery time must be after pickup time" None)
  else
    id <~ db_session_add_order
            {| customer_id := customer_id';
               worker_id := worker_id';
               pickup_time := pickup_time';
               delivery_time := delivery_time';
               status := OrderStatus.created;
               price := price';
               cancellation_fee := 0%float;
               created_by := created_by';
               address_id := address_id' |} ;;
    ret ({| order_message := "Order created by admin";
            order_order_id := id |}, 201).


Section list_all_orders.

Variable by_created_at_desc : list (Z * Order) → list (Z * Order).

Definition list_all_orders : M (list AdminOrderRow * Z) :=
  s <~ get_store ;;
  let orders' := by_created_at_desc (map_to_list (orders s)) in
  ret (List.map (fun kv =>
                   {| admin_row_order_id := fst kv;
                      admin_row_customer_id := customer_id (snd kv);
                      admin_row_worker_id := worker_id (snd kv);
                      admin_row_pickup_time := pickup_time (snd kv);
                      admin_row_delivery_time := delivery_time (snd kv);
                      admin_row_status := OrderStatus.value (status (snd kv));
                      admin_row_price := price (snd kv);
                      admin_row_cancellation_fee := cancellation_fee (snd kv) |})
                orders',
       200).

End list_all_orders.

Definition assign_customer_to_worker (worker_id' customer_id' : Z)
  : M (MessageResponse * Z) :=
  customer <~ Customer_query_first customer_id' (fun _ => true) ;;
  match customer with
  | None => raise (NotFoundError "Customer not found")
  | Some _ =>
      Customer_setattr customer_id' (with_assigned_worker_id (Some worker_id')) ;;;
      db_session_commit ;;;
      ret ({| message_message :=
                "Customer " +:+ pretty customer_id'
                +:+ " assigned to worker " +:+ pretty worker_id' |}, 200)
  end.

End admin_service.

(** ** services/auth_service.py: the access token *)

Module auth_service.

(** The claims of a verified token. [generate_access_token] stores
    [str(user_id)] as identity and [role_required] reads it back with
    [int(identity)]; the identity is held here as that integer. Signing
    and encoding are the JWT library's. *)
Record access_token := mk_access_token {
  token_identity : Z;
  token_role : option string;
  token_expires_delta : Z
}.

Definition generate_access_token (user_id : Z) (role : string) : access_token :=
  {| token_identity := user_id;
     token_role := Some role;
     token_expires_delta := timedelta_hours 4 |}.

Inductive login_body :=
  | LoginError (error_message : string)
  | LoginOk (message : string) (token : access_token)
      (id : Z) (name : option string) (email role : string).

Section login_user.

(** [werkzeug.security.check_password_hash(hashed, password)]. *)
Variable check_password_hash : string → string → bool.

Definition check_password (password hashed : string) : bool :=
  check_password_hash hashed password.

(** [User.query.filter_by(email=email).first()]. *)
Definition User_query_first_by_email (email : string) : M (option (Z * User)) :=
  s <~ get_store ;;
  ret (List.find (fun kv => String.eqb (user_email (snd kv)) email)
                 (map_to_list (users s))).

Definition login_user (email password : string) : M (login_body * Z) :=
  user <~ User_query_first_by_email email ;;
  match user with
  | None => ret (LoginError "Invalid email", 401)
  | Some (id, user) =>
      if negb (check_password password (user_password user)) then
        ret (LoginError "Invalid password", 401)
      else
        let token := generate_access_token id (UserRole.value (user_role user)) in
        ret (LoginOk "Login successful" token id (user_name user)
               (user_email user) (UserRole.value (user_role user)), 200)
  end.

End login_user.
End auth_service.

(** ** utils/role_decorator_util.py *)

Module role_decorator_util.
Import auth_service.

(** Lines 23-28: the configured role names, lower-cased and looked up, in
    order; [inl role] is the first name that is no member. *)
Fixpoint allowed_roles (roles : list string) : string + list string :=
  match roles with
  | [] => inr []
  | role :: rest =>
      match UserRole.getitem (str_lower role) with
      | None => inl role
      | Some member =>
          match allowed_roles rest with
          | inl bad => inl bad
          | inr allowed => inr (UserRole.value member :: allowed)
          end
      end
  end.

(** The wrapper that [role_required] builds around [fn] from the role
    names, applied to the claims of the request's token; [fn] receives [user_id] and [user_role]. *)
Definition role_required (roles : list string)
    (fn : Z → string → M (route_body * Z)) (token : access_token)
  : M (route_body * Z) :=
  match allowed_roles roles with
  | inl role => ret (ErrorJson ("Invalid role '" +:+ role +:+ "'"), 400)
  | inr allowed =>
      match token_role token with
      | Some user_role =>
          if existsb (String.eqb user_role) allowed
          then fn (token_identity token) user_role
          else ret (ErrorJson "Unauthorized", 403)
      | None => ret (ErrorJson "Unauthorized", 403)
      end
  end.

End role_decorator_util.

(** ** routers: the routes without request parsing of their own, after
    [jwt_required] has verified the token *)

Definition with_body {A} (wrap : A → route_body) (m : M (A * Z)) : M (route_body * Z) :=
  r <~ m ;; ret (wrap (fst r), snd r).

Module customer_routes.
Section cancel_order_route.
Import role_decorator_util.

Variable fee_percentage : float.
Variable karachi_utcoffset : Z → Z.

Definition cancel_order_route (now : Z) (order_id : Z)
  : auth_service.access_token → M (route_body * Z) :=
  role_required ["customer"] (fun user_id user_role =>
    try_except
      (with_body CancelJson
         (cancel_order_util.cancel_order fee_percentage karachi_utcoffset
            now user_id order_id (RoleStr user_role)))
      (fun e => ret (ErrorJson (error_str e), 400))).

End cancel_order_route.
End customer_routes.

Module worker_routes.
Import role_decorator_util.

Definition get_unclaimed_orders : auth_service.access_token → M (route_body * Z) :=
  role_required ["worker"] (fun user_id user_role =>
    with_body UnclaimedJson worker_service.list_unclaimed_orders).

Definition claim_order_route (order_id : Z)
  : auth_service.access_token → M (route_body * Z) :=
  role_required ["worker"] (fun user_id user_role =>
    with_body OrderJson (worker_service.claim_order user_id order_id)).

(** [status] is the [status] item of the JSON body: [None] when the item
    is missing or null, a string otherwise. *)
Definition update_order_status_route (order_id : Z) (status' : option string)
  : auth_service.access_token → M (route_body * Z) :=
  role_required ["worker"] (fun user_id user_role =>
    match status' with
    | None | Some EmptyString => ret (ErrorJson "Status is required", 400)
    | Some status' =>
        with_body StatusJson
          (worker_service.update_order_status user_id order_id status')
    end).

End worker_routes.

Module admin_routes.
Section cancel_order_route.
Import role_decorator_util.

Variable fee_percentage : float.
Variable karachi_utcoffset : Z → Z.

Definition cancel_order_route (now : Z) (order_id : Z)
  : auth_service.access_token → M (route_body * Z) :=
  role_required ["admin"] (fun user_id user_role =>
    with_body CancelJson
      (cancel_order_util.cancel_order fee_percentage karachi_utcoffset
         now user_id order_id (RoleStr user_role))).

End cancel_order_route.

(** [customer_id] is the [customer_id] item of the JSON body: [None] when
    it is missing or null, an integer otherwise; 0 is falsy. *)
Definition assign_customer (worker_id' : Z) (customer_id' : option Z)
  : auth_service.access_token → M (route_body * Z) :=
  role_decorator_util.role_required ["admin"] (fun user_id user_role =>
    match customer_id' with
    | None | Some 0 => ret (ErrorJson "customer_id is required", 400)
    | Some customer_id' =>
        with_body MessageJson
          (admin_service.assign_customer_to_worker worker_id' customer_id')
    end).

End admin_routes.

(** ** One entry point per request

    The routes call one service per request; the calls that change an
    order's status, and the three ways of creating an order, are gathered
    here so that a property of "every status mutation" or of "every
    creation path" is one statement. *)

Inductive response :=
  | CancelResp (r : CancelResponse * Z)
  | OrderResp (r : OrderResponse * Z)
  | StatusResp (r : StatusResponse * Z).

Definition map_result {A B} (f : A → B) (out : Store * result A) : Store * result B :=
  match out with
  | (s, Ok a) => (s, Ok (f a))
  | (s, Raise e) => (s, Raise e)
  end.

Inductive status_call :=
  | CancelOrder (now user_id order_id : Z) (role : role_value)
  | ClaimOrder (worker_id' order_id : Z)
  | UpdateOrderStatus (worker_id' order_id : Z) (status' : string).

Definition run_status_call (fee_percentage : float) (karachi_utcoffset : Z → Z)
    (c : status_call) (s : Store) : Store * result response :=
  match c with
  | CancelOrder now user_id order_id role =>
      map_result CancelResp
        (cancel_order_util.cancel_order fee_percentage karachi_utcoffset
           now user_id order_id role s)
  | ClaimOrder w order_id =>
      map_result OrderResp (worker_service.claim_order w order_id s)
  | UpdateOrderStatus w order_id st =>
      map_result StatusResp (worker_service.update_order_status w order_id st s)
  end.

Inductive create_call :=
  | CustomerCreates (now customer_id' : Z) (pickup_time' delivery_time' : datetime)
      (price' : float) (address_id' : Z)
  | WorkerCreates (worker_id' customer_id' : Z)
      (pickup_time' delivery_time' : datetime) (price' : float)
  | AdminCreates (customer_id' : Z) (worker_id' : option Z)
      (pickup_time' delivery_time' : datetime) (price' : float)
      (created_by' address_id' : Z).

Definition run_create_call (c : create_call) : M (OrderResponse * Z) :=
  match c with
  | CustomerCreates now cid p d pr a =>
      customer_service.create_order_for_customer now cid p d pr a
  | WorkerCreates w cid p d pr =>
      worker_service.create_order_for_customer w cid p d pr
  | AdminCreates cid w p d pr by' a =>
      admin_service.create_order_for_customer cid w p d pr by' a
  end.

(** The pickup and delivery times a creation path compares and stores:
    the customer path first tags naive values as UTC. *)
Definition compared_pickup (c : create_call) : datetime :=
  match c with
  | CustomerCreates _ _ p _ _ _ => customer_service.ensure_aware p
  | WorkerCreates _ _ p _ _ => p
  | AdminCreates _ _ p _ _ _ _ => p
  end.

Definition compared_delivery (c : create_call) : datetime :=
  match c with
  | CustomerCreates _ _ _ d _ _ => customer_service.ensure_aware d
  | WorkerCreates _ _ _ d _ => d
  | AdminCreates _ _ _ d _ _ _ => d
  end.

(** ** binary64: vocabulary of the rounding lemmas

    Python's [float] is IEEE 754 binary64; the kernel's primitive floats
    are specified by [SpecFloat], whose rounding the lemmas on the fee
    follow step by step. *)

(** A shifted mantissa has lost nothing: the round and sticky bits are
    clear. *)
Definition lossless (a : shr_record) : Prop := shr_r a = false ∧ shr_s a = false.

(** [b] is [a] shifted right by [k] bits: the mantissa is divided, and
    nothing was lost exactly when [a] had lost nothing and the [k] low bits
    were zero. *)
Definition shifted (k : Z) (a b : shr_record) : Prop :=
  shr_m b = shr_m a / 2 ^ k
  ∧ (lossless b ↔ lossless a ∧ shr_m a mod 2 ^ k = 0).

(** The exponent binary64 gives a number of magnitude [x]. *)
Definition fexp64 (x : Z) : Z := fexp prec emax x.

(** [canonical m e]: the exponent of [m * 2 ^ e] is the one binary64
    chooses for its magnitude. *)
Definition canonical (m e : Z) : Prop := fexp64 (Zdigits2 m + e) = e.

(** [100.0] is [mantissa_hundred * 2 ^ -46] and [1.0] is
    [mantissa_one * 2 ^ -52]. *)
Definition mantissa_hundred : positive := 7036874417766400.
Definition mantissa_one : positive := 4503599627370496.

(** ** Vocabulary of the statements *)

(** The two statuses after which an order's lifecycle is over. *)
Definition terminal (st : OrderStatus.t) : bool :=
  match st with
  | OrderStatus.completed | OrderStatus.cancelled => true
  | _ => false
  end.

(** The instant an aware value denotes (the reading of a naive one). *)
Definition instant_of (dt : datetime) : Z :=
  match tzinfo dt with
  | Some off => utc_instant (wall dt) off
  | None => wall dt
  end.

(** [delivery_time > pickup_time], in the sense of Python's comparison:
    defined, and true. *)
Definition delivery_after_pickup (o : Order) : Prop :=
  datetime_le (delivery_time o) (pickup_time o) = Ok false.

(** The UTC instant of the order's pickup time after the normalization of
    lines 31-36 of [cancel_order]. *)
Definition pickup_instant (karachi_utcoffset : Z → Z) (o : Order) : Z :=
  instant_of (cancel_order_util.normalize_pickup_time karachi_utcoffset (pickup_time o)).

(** Lines 47-50 of [cancel_order], as a function of the time left until
    pickup. *)
Definition fee_due (fee_percentage : float) (remaining : Z) (price' : float) : float :=
  if remaining <=? timedelta_hours 1
  then ((fee_percentage / 100) * price')%float
  else 0%float.

Definition cancelled_with (fee : float) (o : Order) : Order :=
  with_cancellation_fee fee (with_status OrderStatus.cancelled o).

Definition claimed_by (w : Z) (o : Order) : Order :=
  with_status OrderStatus.claimed (with_worker_id (Some w) o).

Definition cancel_message_of (role : role_value) (u : User) (user_id : Z) : string :=
  "Order cancelled by " +:+ role_str role +:+ " "
  +:+ option_str (user_name u) +:+ " (ID: " +:+ pretty user_id +:+ ")".

Definition after_pickup_error : error :=
  ValidationError "Cannot cancel order after pickup time" (Some "pickup_time").

Definition not_claimable_error : error :=
  NotFoundError "Order not available for claiming".

(** Every way a call of [cancel_order] can end. *)
Inductive cancel_outcome (fee_percentage : float) (karachi_utcoffset : Z → Z)
    (now user_id order_id : Z) (role : role_value)
    (s : Store) : Store * result (CancelResponse * Z) → Prop :=
  | cancel_user_missing :
      users s !! user_id = None →
      cancel_outcome fee_percentage karachi_utcoffset now user_id order_id role s
        (s, Raise (NotFoundError "User not found"))
  | cancel_order_missing u :
      users s !! user_id = Some u →
      (orders s !! order_id = None
       ∨ ∃ o, orders s !! order_id = Some o
              ∧ cancel_order_util.order_filter user_id role o = false) →
      cancel_outcome fee_percentage karachi_utcoffset now user_id order_id role s
        (s, Raise (NotFoundError "Order not found"))
  | cancel_too_late u o :
      users s !! user_id = Some u →
      orders s !! order_id = Some o →
      cancel_order_util.order_filter user_id role o = true →
      pickup_instant karachi_utcoffset o < now →
      cancel_outcome fee_percentage karachi_utcoffset now user_id order_id role s (s, Raise after_pickup_error)
  | cancel_done u o :
      users s !! user_id = Some u →
      orders s !! order_id = Some o →
      cancel_order_util.order_filter user_id role o = true →
      now ≤ pickup_instant karachi_utcoffset o →
      let fee :=
        fee_due fee_percentage (pickup_instant karachi_utcoffset o - now) (price o) in
      cancel_outcome fee_percentage karachi_utcoffset now user_id order_id role s
        (set_orders (alter (cancelled_with fee) order_id) s,
         Ok ({| cancel_message := cancel_message_of role u user_id;
                cancel_cancellation_fee := fee |}, 200)).

(** The ids that [list_unclaimed_orders] answers with. *)
Definition unclaimed_rows (s : Store) : list UnclaimedOrder :=
  match snd (worker_service.list_unclaimed_orders s) with
  | Ok (rows, _) => rows
  | Raise _ => []
  end.

Definition unclaimed_ids (s : Store) : list Z :=
  List.map unclaimed_order_id (unclaimed_rows s).

(** The row of the listing that stands for order [id] with content [o]. *)
Definition unclaimed_row_of (id : Z) (o : Order) : UnclaimedOrder :=
  {| unclaimed_order_id := id;
     unclaimed_pickup_time := pickup_time o;
     unclaimed_delivery_time := delivery_time o;
     unclaimed_price := price o;
     unclaimed_customer_id := customer_id o |}.

(** The row a creation path stores: the two time columns keep the
    readings of the values the path compared. *)
Definition customer_order (customer_id' : Z) (pickup_time' delivery_time' : datetime)
    (price' : float) (address_id' : Z) : Order :=
  {| customer_id := customer_id';
     worker_id := None;
     pickup_time := column_DateTime (customer_service.ensure_aware pickup_time');
     delivery_time := column_DateTime (customer_service.ensure_aware delivery_time');
     status := OrderStatus.created;
     price := price';
     cancellation_fee := 0%float;
     created_by := customer_id';
     address_id := address_id' |}.

Definition worker_order (worker_id' customer_id' : Z)
    (pickup_time' delivery_time' : datetime) (price' : float) (address_id' : Z) : Order :=
  {| customer_id := customer_id';
     worker_id := Some worker_id';
     pickup_time := column_DateTime pickup_time';
     delivery_time := column_DateTime delivery_time';
     status := OrderStatus.created;
     price := price';
     cancellation_fee := 0%float;
     created_by := worker_id';
     address_id := address_id' |}.


(** The rows of the two order listings. *)
Definition customer_row_of (id : Z) (o : Order) : CustomerOrderRow :=
  {| row_order_id := id;
     row_pickup_time := pickup_time o;
     row_delivery_time := delivery_time o;
     row_status := OrderStatus.value (status o);
     row_price := price o;
     row_worker_id := worker_id o |}.

Definition admin_row_of (id : Z) (o : Order) : AdminOrderRow :=
  {| admin_row_order_id := id;
     admin_row_customer_id := customer_id o;
     admin_row_worker_id := worker_id o;
     admin_row_pickup_time := pickup_time o;
     admin_row_delivery_time := delivery_time o;
     admin_row_status := OrderStatus.value (status o);
     admin_row_price := price o;
     admin_row_cancellation_fee := cancellation_fee o |}.

Definition unauthorized : route_body * Z := (ErrorJson "Unauthorized", 403).

(** The claims of the token that [login_user] issues for user [id]. *)
Definition token_of (id : Z) (u : User) : auth_service.access_token :=
  auth_service.generate_access_token id (UserRole.value (user_role u)).

(** The configured role names as members, when all of them are names of
    members. *)
Definition configured_members (roles : list string) : option (list UserRole.t) :=
  mapM (fun role => UserRole.getitem (str_lower role)) roles.

(** A second worker, and a hash check that accepts the stored string
    itself, for the concrete runs. *)
Definition plain_check (hashed password : string) : bool := String.eqb hashed password.

(** ** A small store, for the concrete runs *)

Definition hour : Z := timedelta_hours 1.

(** Pakistan Standard Time, UTC+05:00. *)
Definition pkt (_ : Z) : Z := timedelta_hours 5.

Definition at_utc (w : Z) : datetime := {| wall := w; tzinfo := Some timezone_utc |}.
Definition naive (w : Z) : datetime := {| wall := w; tzinfo := None |}.

Definition ali : User :=
  mk_User (Some "Ali") "ali@example.pk" "pbkdf2" "+923000000001" UserRole.customer.
Definition bea : User :=
  mk_User (Some "Bea") "bea@example.pk" "pbkdf2" "+923000000002" UserRole.customer.
Definition wahid : User :=
  mk_User (Some "Wahid") "wahid@example.pk" "pbkdf2" "+923000000005" UserRole.worker.
Definition root : User :=
  mk_User (Some "Root") "root@example.pk" "pbkdf2" "+923000000009" UserRole.admin.

(** Stored orders of customer 2 (Bea): the columns hold the readings 15:00
    for pickup and 17:00 for delivery, which [cancel_order] takes as
    Karachi time, 10:00 and 12:00 UTC. *)
Definition order_of_bea (w : option Z) (st : OrderStatus.t) : Order :=
  mk_Order 2 w (naive (15 * hour)) (naive (17 * hour)) st 1000%float 0%float 2 12.

Definition ex_store : Store :=
  {| users := <[1 := ali]> (<[2 := bea]> (<[5 := wahid]> (<[9 := root]> ∅)));
     customers :=
       <[1 := mk_Customer None [11]]> (<[2 := mk_Customer (Some 5) [12; 13]]> ∅);
     orders :=
       <[3 := order_of_bea (Some 5) OrderStatus.delivered]>
         (<[4 := order_of_bea (Some 5) OrderStatus.completed]>
            (<[7 := order_of_bea None OrderStatus.created]>
               (<[8 := order_of_bea None OrderStatus.cancelled]> ∅)));
     order_status_history := ∅ |}.

(** * Properties *)

(** ** The monad and the store *)

Ltac run_request :=
  cbv beta delta
    [bind ret raise lift get_store modify_store User_query_get
     Order_query_first Customer_query_first Order_setattr
     db_session_commit db_session_add_order] iota; cbn beta iota.

Lemma max_order_id_bound (m : gmap Z Order) k o :
  m !! k = Some o → k ≤ max_order_id m.
Proof.
  unfold max_order_id. revert k o.
  apply (map_fold_weak_ind
           (fun r (m : gmap Z Order) => ∀ k o, m !! k = Some o → k ≤ r)).
  - intros k o H. by rewrite lookup_empty in H.
  - intros i x m' r _ IH k o H.
    destruct (decide (i = k)) as [->|Hne].
    + lia.
    + rewrite lookup_insert_ne in H by done. specialize (IH k o H). lia.
Qed.

(** A new row never takes the key of a stored one. *)
Lemma next_order_id_fresh s : orders s !! next_order_id s = None.
Proof.
  destruct (orders s !! next_order_id s) as [o|] eqn:E; [|done].
  apply max_order_id_bound in E. unfold next_order_id in E. lia.
Qed.

(** ** datetime *)

Lemma datetime_gt_now now p off :
  tzinfo p = Some off →
  datetime_gt (datetime_now_utc now) p = Ok (bool_decide (instant_of p < now)).
Proof.
  intros H. unfold datetime_gt, datetime_compare, instant_of, datetime_now_utc.
  cbn. rewrite H. unfold utc_instant, timezone_utc.
  destruct (Z.compare_spec (now - 0) (wall p - off));
    case_bool_decide; first [reflexivity | lia].
Qed.

Lemma datetime_sub_now now p off :
  tzinfo p = Some off →
  datetime_sub p (datetime_now_utc now) = Ok (instant_of p - now).
Proof.
  intros H. unfold datetime_sub, instant_of, datetime_now_utc.
  cbn. rewrite H. unfold utc_instant, timezone_utc. f_equal. lia.
Qed.

(** A comparison that answers at all answers [true] or [false]; when it
    raises, it raises [TypeError]. *)
Lemma datetime_le_cases a b :
  datetime_le a b = Ok true ∨ datetime_le a b = Ok false
  ∨ datetime_le a b = Raise (TypeError naive_aware_compare).
Proof.
  unfold datetime_le, datetime_compare.
  destruct (tzinfo a), (tzinfo b); auto;
    match goal with |- context [Z.compare ?x ?y] => destruct (Z.compare x y) end;
    auto.
Qed.

Lemma datetime_le_aware a b oa ob :
  tzinfo a = Some oa → tzinfo b = Some ob →
  datetime_le a b = Ok (bool_decide (wall a - oa ≤ wall b - ob)).
Proof.
  intros Ha Hb. unfold datetime_le, datetime_compare, utc_instant.
  rewrite Ha, Hb.
  destruct (Z.compare_spec (wall a - oa) (wall b - ob));
    case_bool_decide; first [reflexivity | lia].
Qed.

(** ** cancel_order: what each path through the function returns *)

Section cancel_order_paths.
Import cancel_order_util.

Variable fee_percentage : float.
Variable karachi_utcoffset : Z → Z.

Lemma normalize_pickup_time_aware p :
  ∃ off, tzinfo (normalize_pickup_time karachi_utcoffset p) = Some off.
Proof.
  unfold normalize_pickup_time.
  destruct (tzinfo p) as [off|] eqn:E; cbn; eauto.
Qed.

Lemma cancel_order_no_user now user_id order_id role s :
  users s !! user_id = None →
  cancel_order fee_percentage karachi_utcoffset now user_id order_id role s
  = (s, Raise (NotFoundError "User not found")).
Proof. intros H. unfold cancel_order. run_request. by rewrite H. Qed.

Lemma cancel_order_no_order now user_id order_id role s u :
  users s !! user_id = Some u →
  orders s !! order_id = None →
  cancel_order fee_percentage karachi_utcoffset now user_id order_id role s
  = (s, Raise (NotFoundError "Order not found")).
Proof.
  intros Hu Ho. unfold cancel_order. run_request. by rewrite Hu, Ho.
Qed.

Lemma cancel_order_filtered now user_id order_id role s u o :
  users s !! user_id = Some u →
  orders s !! order_id = Some o →
  order_filter user_id role o = false →
  cancel_order fee_percentage karachi_utcoffset now user_id order_id role s
  = (s, Raise (NotFoundError "Order not found")).
Proof.
  intros Hu Ho Hf. unfold cancel_order. run_request. by rewrite Hu, Ho, Hf.
Qed.

Lemma cancel_order_resolved now user_id order_id role s u o :
  users s !! user_id = Some u →
  orders s !! order_id = Some o →
  order_filter user_id role o = true →
  cancel_order fee_percentage karachi_utcoffset now user_id order_id role s
  = if bool_decide (pickup_instant karachi_utcoffset o < now)
    then (s, Raise after_pickup_error)
    else
      let fee :=
        fee_due fee_percentage (pickup_instant karachi_utcoffset o - now) (price o) in
      (set_orders (alter (cancelled_with fee) order_id) s,
       Ok ({| cancel_message := cancel_message_of role u user_id;
              cancel_cancellation_fee := fee |}, 200)).
Proof.
  intros Hu Ho Hf. unfold cancel_order. run_request.
  rewrite Hu, Ho, Hf.
  destruct (normalize_pickup_time_aware (pickup_time o)) as [off Hoff].
  rewrite (datetime_gt_now _ _ _ Hoff), (datetime_sub_now _ _ _ Hoff).
  fold (pickup_instant karachi_utcoffset o).
  case_bool_decide; [reflexivity|].
  cbn zeta. f_equal. unfold set_orders; cbn. f_equal.
  by rewrite alter_alter_eq.
Qed.

Lemma cancel_order_outcome now user_id order_id role s :
  cancel_outcome fee_percentage karachi_utcoffset now user_id order_id role s
    (cancel_order fee_percentage karachi_utcoffset now user_id order_id role s).
Proof.
  destruct (users s !! user_id) as [u|] eqn:Hu.
  2: { rewrite cancel_order_no_user by done. by constructor. }
  destruct (orders s !! order_id) as [o|] eqn:Ho.
  2: { rewrite (cancel_order_no_order _ _ _ _ _ u) by done.
       econstructor; eauto. }
  destruct (order_filter user_id role o) eqn:Hf.
  2: { rewrite (cancel_order_filtered _ _ _ _ _ u o) by done.
       econstructor; eauto. }
  rewrite (cancel_order_resolved _ _ _ _ _ u o) by done.
  case_bool_decide.
  - by eapply cancel_too_late.
  - eapply cancel_done; eauto. lia.
Qed.

End cancel_order_paths.

(** ** The pickup-time cutoff *)

(** C1. Once the current instant is strictly past the order's normalized
    pickup time, [cancel_order] changes nothing and does not succeed,
    whatever the acting role; and whenever the acting user and the order
    are resolved, what it raises is
    ValidationError("Cannot cancel order after pickup time"). *)
Theorem cancel_order_after_pickup_rejected
    fee_percentage karachi_utcoffset now user_id order_id role s o :
  orders s !! order_id = Some o →
  pickup_instant karachi_utcoffset o < now →
  let out :=
    cancel_order_util.cancel_order fee_percentage karachi_utcoffset
      now user_id order_id role s in
  fst out = s
  ∧ is_Ok (snd out) = false
  ∧ (∀ u, users s !! user_id = Some u →
          cancel_order_util.order_filter user_id role o = true →
          snd out = Raise (ValidationError "Cannot cancel order after pickup time"
                                           (Some "pickup_time"))).
Proof.
  intros Ho Hlate out. subst out.
  destruct (cancel_order_outcome fee_percentage karachi_utcoffset
              now user_id order_id role s)
    as [Hu|u Hu Hmiss|u o' Hu Ho' Hf Hlt|u o' Hu Ho' Hf Hle fee]; cbn.
  - split; [done|]. split; [done|]. intros u Hu'. congruence.
  - split; [done|]. split; [done|]. intros u' _ Hf.
    destruct Hmiss as [Hn|(o' & Ho' & Hf')]; congruence.
  - done.
  - assert (o' = o) by congruence. subst o'. lia.
Qed.

Lemma cancel_order_after_pickup_rejected_witness :
  let out :=
    cancel_order_util.cancel_order 10%float pkt (11 * hour) 9 7
      (RoleStr "admin") ex_store in
  fst out = ex_store
  ∧ is_Ok (snd out) = false
  ∧ (∀ u, users ex_store !! 9 = Some u →
          cancel_order_util.order_filter 9 (RoleStr "admin")
            (order_of_bea None OrderStatus.created) = true →
          snd out = Raise (ValidationError "Cannot cancel order after pickup time"
                                           (Some "pickup_time"))).
Proof.
  apply (cancel_order_after_pickup_rejected 10%float pkt (11 * hour) 9 7
           (RoleStr "admin") ex_store (order_of_bea None OrderStatus.created)).
  - reflexivity.
  - reflexivity.
Defined.

(** ** binary64: rounding stays within representable bounds *)

Lemma digits2_pos_bounds p :
  2 ^ (Zpos (digits2_pos p) - 1) ≤ Zpos p < 2 ^ Zpos (digits2_pos p).
Proof.
  induction p as [p IH|p IH|]; cbn [digits2_pos].
  - rewrite Pos2Z.inj_succ.
    replace (Z.succ (Zpos (digits2_pos p)) - 1) with (Zpos (digits2_pos p) - 1 + 1) by lia.
    rewrite Z.pow_succ_r by lia.
    destruct (digits2_pos p) eqn:E; rewrite ?Z.pow_add_r by lia;
      rewrite ?Z.pow_1_r; lia.
  - rewrite Pos2Z.inj_succ.
    replace (Z.succ (Zpos (digits2_pos p)) - 1) with (Zpos (digits2_pos p) - 1 + 1) by lia.
    rewrite Z.pow_succ_r by lia.
    destruct (digits2_pos p) eqn:E; rewrite ?Z.pow_add_r by lia;
      rewrite ?Z.pow_1_r; lia.
  - cbn. lia.
Qed.

Lemma Zdigits2_nonneg m : 0 ≤ Zdigits2 m.
Proof. destruct m; cbn; lia. Qed.

Lemma Zdigits2_bounds m :
  0 < m → 2 ^ (Zdigits2 m - 1) ≤ m < 2 ^ Zdigits2 m.
Proof. destruct m as [|p|p]; try lia. intros _. apply digits2_pos_bounds. Qed.

Lemma Zdigits2_ge m k : 0 ≤ k → 2 ^ k ≤ m → k + 1 ≤ Zdigits2 m.
Proof.
  intros Hk Hm.
  assert (0 < m) as Hpos by (pose proof (Z.pow_pos_nonneg 2 k); lia).
  destruct (Zdigits2_bounds m Hpos) as [_ Hlt].
  assert (2 ^ k < 2 ^ Zdigits2 m) as H by lia.
  apply Z.pow_lt_mono_r_iff in H; [lia | lia | apply Zdigits2_nonneg].
Qed.

(** *** Shifting a mantissa to the right *)

Lemma shr_1_shifted a : 0 ≤ shr_m a → shifted 1 a (shr_1 a).
Proof.
  destruct a as [m r s]. unfold shifted, lossless. cbn [shr_m shr_r shr_s].
  intros Hm. change (2 ^ 1) with 2.
  destruct m as [|[p|p|]|p]; try lia; cbn [shr_1 shr_m shr_r shr_s].
  - split; [reflexivity|]. rewrite orb_false_iff. rewrite Zmod_0_l. tauto.
  - split; [rewrite Pos2Z.inj_xI; apply Z.div_unique with 1; lia|].
    rewrite Pos2Z.inj_xI.
    replace ((2 * Zpos p + 1) mod 2) with 1
      by (apply Z.mod_unique with (Zpos p); lia).
    split; [intros [? _]; discriminate | intros [_ ?]; lia].
  - split; [rewrite Pos2Z.inj_xO; apply Z.div_unique with 0; lia|].
    rewrite Pos2Z.inj_xO.
    replace ((2 * Zpos p) mod 2) with 0
      by (apply Z.mod_unique with (Zpos p); lia).
    rewrite orb_false_iff. tauto.
  - split; [reflexivity|].
    split; [intros [? _]; discriminate | intros [_ ?]; discriminate].
Qed.

Lemma shifted_nonneg k a b : 0 ≤ k → 0 ≤ shr_m a → shifted k a b → 0 ≤ shr_m b.
Proof.
  intros Hk Ha [-> _]. apply Z.div_pos; [lia|]. apply Z.pow_pos_nonneg; lia.
Qed.

Lemma shifted_trans j k a b c :
  0 ≤ j → 0 ≤ k →
  shifted j a b → shifted k b c → shifted (j + k) a c.
Proof.
  intros Hj Hk [Hb Eb] [Hc Ec].
  assert (0 < 2 ^ j) by (apply Z.pow_pos_nonneg; lia).
  assert (0 < 2 ^ k) by (apply Z.pow_pos_nonneg; lia).
  split.
  - rewrite Hc, Hb, Z.pow_add_r by lia. apply Z.div_div; lia.
  - rewrite Ec, Eb, Hb. rewrite Z.pow_add_r by lia.
    rewrite Z.rem_mul_r by lia.
    pose proof (Z.mod_pos_bound (shr_m a) (2 ^ j) ltac:(lia)).
    pose proof (Z.mod_pos_bound (shr_m a / 2 ^ j) (2 ^ k) ltac:(lia)).
    split.
    + intros [[? ?] ?]. split; [done|]. nia.
    + intros [? ?]. split; [split; [done|]|]; nia.
Qed.

Lemma iter_pos_shr_1 p a :
  0 ≤ shr_m a → shifted (Zpos p) a (iter_pos shr_1 p a).
Proof.
  revert a. induction p as [p IH|p IH|]; intros a Ha; cbn [iter_pos].
  - replace (Zpos p~1) with (1 + (Zpos p + Zpos p)) by lia.
    pose proof (shr_1_shifted a Ha) as H0.
    pose proof (shifted_nonneg 1 _ _ ltac:(lia) Ha H0) as Ha'.
    pose proof (IH _ Ha') as H1.
    pose proof (shifted_nonneg (Zpos p) _ _ ltac:(lia) Ha' H1) as Hb.
    eapply shifted_trans; [lia | lia | apply H0 |].
    eapply shifted_trans; [lia | lia | apply H1 | apply IH, Hb].
  - replace (Zpos p~0) with (Zpos p + Zpos p) by lia.
    pose proof (IH a Ha) as H1.
    pose proof (shifted_nonneg (Zpos p) _ _ ltac:(lia) Ha H1) as Hb.
    eapply shifted_trans; [lia | lia | apply H1 | apply IH, Hb].
  - apply shr_1_shifted, Ha.
Qed.

Lemma shifted_0 a : 0 ≤ shr_m a → shifted 0 a a.
Proof.
  intros Ha. split; [by rewrite Z.div_1_r|].
  rewrite Z.mod_1_r. tauto.
Qed.

(** [shr] shifts by [Z.max n 0] bits and moves the exponent along. *)
Lemma shr_shifted a e n :
  0 ≤ shr_m a →
  shifted (Z.max n 0) a (shr a e n).1 ∧ (shr a e n).2 = e + Z.max n 0.
Proof.
  intros Ha. destruct n as [|p|p]; cbn [shr fst snd].
  - split; [by apply shifted_0 | lia].
  - replace (Z.max (Zpos p) 0) with (Zpos p) by lia.
    split; [by apply iter_pos_shr_1 | done].
  - replace (Z.max (Zneg p) 0) with 0 by lia.
    split; [by apply shifted_0 | lia].
Qed.

Lemma lossless_loc m l : lossless (shr_record_of_loc m l) ↔ l = loc_Exact.
Proof.
  unfold lossless. destruct l as [|[]]; cbn; split; intros H; try done;
    by destruct H.
Qed.

Lemma shr_m_of_loc m l : shr_m (shr_record_of_loc m l) = m.
Proof. by destruct l as [|[]]. Qed.

Lemma loc_lossless a : loc_of_shr_record a = loc_Exact ↔ lossless a.
Proof.
  unfold lossless. destruct a as [m [] []]; cbn; split; intros H; try done;
    by destruct H.
Qed.

Lemma round_nearest_even_bounds m l :
  m ≤ round_nearest_even m l ≤ m + 1
  ∧ (l = loc_Exact → round_nearest_even m l = m).
Proof.
  destruct l as [|[]]; cbn [round_nearest_even]; try (split; [lia | done]).
  destruct (IntDef.Z.even m); split; (lia || done).
Qed.

(** *** Magnitudes and the binary64 exponent function *)

Lemma fexp64_eq x : fexp64 x = Z.max (x - 53) (-1074).
Proof. reflexivity. Qed.

Lemma pow2_pos k : 0 ≤ k → 0 < 2 ^ k.
Proof. intros. apply Z.pow_pos_nonneg; lia. Qed.

Lemma magnitude_le B a ea b eb :
  0 < a → 0 ≤ ea + B → 0 ≤ eb + B →
  a * 2 ^ (ea + B) ≤ b * 2 ^ (eb + B) →
  Zdigits2 a + ea ≤ Zdigits2 b + eb.
Proof.
  intros Ha Hea Heb Hle.
  pose proof (pow2_pos _ Hea) as Pa. pose proof (pow2_pos _ Heb) as Pb.
  assert (0 < b) as Hb by nia.
  destruct (Zdigits2_bounds a Ha) as [La _].
  destruct (Zdigits2_bounds b Hb) as [_ Ub].
  assert (1 ≤ Zdigits2 a) as Hda by (apply (Zdigits2_ge a 0); [lia | cbn; lia]).
  pose proof (Zdigits2_nonneg b) as Hdb.
  assert (2 ^ (Zdigits2 a - 1 + (ea + B)) < 2 ^ (Zdigits2 b + (eb + B))) as H.
  { rewrite (Z.pow_add_r 2 (Zdigits2 a - 1)), (Z.pow_add_r 2 (Zdigits2 b))
      by lia.
    pose proof (pow2_pos (Zdigits2 a - 1) ltac:(lia)).
    pose proof (pow2_pos (Zdigits2 b) ltac:(lia)).
    apply Z.le_lt_trans with (a * 2 ^ (ea + B));
      [apply Z.mul_le_mono_nonneg_r; lia|].
    apply Z.le_lt_trans with (b * 2 ^ (eb + B)); [done|].
    apply Z.mul_lt_mono_pos_r; lia. }
  apply Z.pow_lt_mono_r_iff in H; lia.
Qed.

(** *** Rounding stays below a representable bound *)

Lemma valid_binary_finite s m e :
  valid_binary prec emax (S754_finite s m e) = true ↔
  canonical (Zpos m) e ∧ e ≤ 971.
Proof.
  cbn [valid_binary]. unfold bounded, canonical_mantissa, canonical, fexp64.
  rewrite andb_true_iff, Z.eqb_eq, Z.leb_le. cbn [Zdigits2].
  change (emax - prec) with 971. tauto.
Qed.

Lemma binary_round_aux_le B m e l Y ey :
  0 ≤ m → 0 ≤ e + B →
  e ≤ fexp64 (Zdigits2 m + e) →
  canonical (Zpos Y) ey → ey ≤ 971 →
  m * 2 ^ (e + B) ≤ Zpos Y * 2 ^ (ey + B) →
  (l ≠ loc_Exact → m * 2 ^ (e + B) < Zpos Y * 2 ^ (ey + B)) →
  SFleb (binary_round_aux prec emax false m e l) (S754_finite false Y ey) = true
  ∧ SFleb (S754_zero false) (binary_round_aux prec emax false m e l) = true.
Proof.
  intros Hm HeB He HcY HeY Hle Hlt.
  unfold binary_round_aux, shr_fexp.
  fold (fexp64 (Zdigits2 m + e)).
  set (e1 := fexp64 (Zdigits2 m + e)) in *.
  (* the exponent reached by the first shift is at most that of the bound *)
  assert (e1 ≤ ey) as He1.
  { destruct (Z.eq_dec m 0) as [->|Hne].
    - unfold canonical in HcY. subst e1. cbn [Zdigits2] in *.
      rewrite fexp64_eq in *. lia.
    - assert (0 ≤ ey + B) as HeyB.
      { unfold canonical in HcY. rewrite fexp64_eq in HcY.
        subst e1. rewrite fexp64_eq in He.
        destruct (Z.le_gt_cases 0 (ey + B)) as [|Hneg]; [done|].
        exfalso.
        rewrite (Z.pow_neg_r 2 (ey + B)) in Hle by lia.
        pose proof (pow2_pos _ HeB). nia. }
      pose proof (magnitude_le B m e (Zpos Y) ey ltac:(lia) HeB HeyB Hle) as Hmag.
      unfold canonical in HcY. subst e1. rewrite fexp64_eq in *. lia. }
  assert (0 ≤ ey + B) as HeyB by lia.
  destruct (shr_shifted (shr_record_of_loc m l) e (e1 - e))
    as [[Hm1 Hx1] He1'].
  { by rewrite shr_m_of_loc. }
  destruct (shr (shr_record_of_loc m l) e (e1 - e)) as [a1 e1'].
  cbn [fst snd] in Hm1, Hx1, He1'.
  replace (Z.max (e1 - e) 0) with (e1 - e) in * by lia.
  assert (e1' = e1) as -> by lia. clear He1'.
  rewrite shr_m_of_loc in Hm1, Hx1. rewrite lossless_loc in Hx1.
  set (n1 := e1 - e) in *.
  set (Y1 := Zpos Y * 2 ^ (ey - e1)).
  pose proof (pow2_pos n1 ltac:(lia)) as Pn1.
  pose proof (pow2_pos (e + B) HeB) as PeB.
  pose proof (pow2_pos (ey - e1) ltac:(lia)) as Py1.
  assert (Zpos Y * 2 ^ (ey + B) = (Y1 * 2 ^ n1) * 2 ^ (e + B)) as HY.
  { unfold Y1, n1.
    replace (ey + B) with ((ey - e1) + ((e1 - e) + (e + B))) by lia.
    rewrite !Z.pow_add_r by lia. ring. }
  rewrite HY in Hle, Hlt.
  assert (m ≤ Y1 * 2 ^ n1) as Hle' by nia.
  assert (l ≠ loc_Exact → m < Y1 * 2 ^ n1) as Hlt'.
  { intros Hl. specialize (Hlt Hl). nia. }
  pose proof (Z.div_mod m (2 ^ n1) ltac:(lia)) as Hdm.
  pose proof (Z.mod_pos_bound m (2 ^ n1) ltac:(lia)) as Hmb.
  rewrite <- Hm1 in Hdm.
  assert (0 ≤ shr_m a1) as Hm1pos by (rewrite Hm1; apply Z.div_pos; lia).
  assert (shr_m a1 ≤ Y1) as Hb1 by nia.
  assert (¬ lossless a1 → shr_m a1 < Y1) as Hb1'.
  { intros Hn.
    destruct (Z.eq_dec (m mod 2 ^ n1) 0) as [Hz|Hnz].
    - assert (l ≠ loc_Exact) as Hl by (intros ->; apply Hn, Hx1; done).
      specialize (Hlt' Hl). nia.
    - nia. }
  destruct (round_nearest_even_bounds (shr_m a1) (loc_of_shr_record a1))
    as [Hr Hrx].
  set (m2 := round_nearest_even (shr_m a1) (loc_of_shr_record a1)) in *.
  assert (m2 ≤ Y1) as Hm2.
  { destruct (loc_of_shr_record a1) eqn:El.
    - rewrite Hrx by done. lia.
    - assert (¬ lossless a1) as Hn by (rewrite <- loc_lossless, El; done).
      specialize (Hb1' Hn). lia. }
  fold (fexp64 (Zdigits2 m2 + e1)).
  destruct (shr_shifted (shr_record_of_loc m2 loc_Exact) e1
              (fexp64 (Zdigits2 m2 + e1) - e1)) as [[Hm3 _] He3].
  { cbn. lia. }
  destruct (shr (shr_record_of_loc m2 loc_Exact) e1
              (fexp64 (Zdigits2 m2 + e1) - e1)) as [a3 e3].
  cbn [fst snd shr_record_of_loc shr_m] in Hm3, He3.
  set (n2 := Z.max (fexp64 (Zdigits2 m2 + e1) - e1) 0) in *.
  pose proof (pow2_pos n2 ltac:(lia)) as Pn2.
  assert (0 ≤ shr_m a3) as Hm3pos by (rewrite Hm3; apply Z.div_pos; lia).
  pose proof (Z.div_mod m2 (2 ^ n2) ltac:(lia)) as Hdm2.
  pose proof (Z.mod_pos_bound m2 (2 ^ n2) ltac:(lia)) as Hmb2.
  rewrite <- Hm3 in Hdm2.
  destruct (shr_m a3) as [|p3|p3] eqn:E3; [done | | lia].
  assert (e3 ≤ ey) as He3y.
  { destruct (Z.le_gt_cases (fexp64 (Zdigits2 m2 + e1) - e1) 0) as [Hn|Hn].
    - lia.
    - assert (0 < m2) as Hm2pos by nia.
      assert (m2 * 2 ^ (e1 + B) ≤ Zpos Y * 2 ^ (ey + B)) as Hv.
      { replace (ey + B) with ((ey - e1) + (e1 + B)) by lia.
        rewrite (Z.pow_add_r 2 (ey - e1) (e1 + B)) by lia.
        rewrite Z.mul_assoc. fold Y1.
        pose proof (pow2_pos (e1 + B) ltac:(lia)). nia. }
      pose proof (magnitude_le B m2 e1 (Zpos Y) ey Hm2pos ltac:(lia) HeyB Hv).
      unfold canonical in HcY. unfold n2 in He3.
      rewrite fexp64_eq in HcY, He3, Hn. lia. }
  change (emax - prec) with 971.
  destruct (Z.leb_spec e3 971) as [_|]; [|lia].
  split; [|done].
  unfold SFleb. cbn [SFcompare].
  destruct (Z.compare_spec e3 ey) as [Heq|Hl|Hg]; [|done|lia].
  assert (Zpos p3 ≤ Zpos Y) as Hfin.
  { assert (Y1 = Zpos Y * 2 ^ n2) as HY1.
    { unfold Y1. f_equal. f_equal. lia. }
    nia. }
  change (PosDef.Pos.compare_cont Eq p3 Y) with (Pos.compare p3 Y).
  destruct (Pos.compare_spec p3 Y); [done | done | lia].
Qed.

Lemma canonical_bounds m e :
  canonical (Zpos m) e →
  -1074 ≤ e ∧ 1 ≤ Zdigits2 (Zpos m) ≤ 53
  ∧ (Zdigits2 (Zpos m) = 53 ∨ e = -1074).
Proof.
  unfold canonical. rewrite fexp64_eq. intros H.
  assert (1 ≤ Zdigits2 (Zpos m)) by (cbn; lia). lia.
Qed.

(** For canonical positive numbers the comparison of [SpecFloat] follows
    the values. *)
Lemma SFleb_value B ma ea mb eb :
  1074 ≤ B →
  canonical (Zpos ma) ea → canonical (Zpos mb) eb →
  SFleb (S754_finite false ma ea) (S754_finite false mb eb) = true →
  Zpos ma * 2 ^ (ea + B) ≤ Zpos mb * 2 ^ (eb + B).
Proof.
  intros HB Ha Hb. unfold SFleb. cbn [SFcompare].
  destruct (canonical_bounds _ _ Ha) as (Hea & Hda & _).
  destruct (canonical_bounds _ _ Hb) as (Heb & Hdb & Hnb).
  destruct (Z.compare_spec ea eb) as [->|Hlt|Hgt]; [| |done].
  - change (PosDef.Pos.compare_cont Eq ma mb) with (Pos.compare ma mb).
    destruct (Pos.compare_spec ma mb); [|  |done]; intros _;
      apply Z.mul_le_mono_nonneg_r; try lia;
      apply Z.lt_le_incl, pow2_pos; lia.
  - intros _.
    assert (Zdigits2 (Zpos mb) = 53) as Hd by lia.
    destruct (Zdigits2_bounds (Zpos ma) ltac:(lia)) as [_ Ua].
    destruct (Zdigits2_bounds (Zpos mb) ltac:(lia)) as [Lb _].
    rewrite Hd in Lb. change (2 ^ (53 - 1)) with (2 ^ 52) in Lb.
    assert (Zpos ma < 2 ^ 53) as Ua'.
    { eapply Z.lt_le_trans; [apply Ua|].
      apply Z.pow_le_mono_r; lia. }
    replace (eb + B) with ((eb - ea - 1) + (1 + (ea + B))) by lia.
    rewrite (Z.pow_add_r 2 (eb - ea - 1)), (Z.pow_add_r 2 1) by lia.
    pose proof (pow2_pos (ea + B) ltac:(lia)).
    pose proof (pow2_pos (eb - ea - 1) ltac:(lia)).
    change (2 ^ 1) with 2. change (2 ^ 53) with (2 * 2 ^ 52) in Ua'.
    set (K := 2 ^ 52) in *.
    set (E := 2 ^ (ea + B)) in *. set (D := 2 ^ (eb - ea - 1)) in *.
    assert (Zpos ma * E ≤ (2 * K) * E) by (apply Z.mul_le_mono_nonneg_r; lia).
    assert (K * (2 * E) ≤ Zpos mb * (2 * E))
      by (apply Z.mul_le_mono_nonneg_r; lia).
    assert (Zpos mb * (1 * (2 * E)) ≤ Zpos mb * (D * (2 * E))).
    { apply Z.mul_le_mono_nonneg_l; [lia|].
      apply Z.mul_le_mono_nonneg_r; lia. }
    lia.
Qed.

Lemma Zdigits2_mul a b :
  0 < a → 0 < b → Zdigits2 a + Zdigits2 b - 1 ≤ Zdigits2 (a * b).
Proof.
  intros Ha Hb.
  destruct (Zdigits2_bounds a Ha) as [La _].
  destruct (Zdigits2_bounds b Hb) as [Lb _].
  assert (1 ≤ Zdigits2 a) by (apply (Zdigits2_ge a 0); [lia | cbn; lia]).
  assert (1 ≤ Zdigits2 b) by (apply (Zdigits2_ge b 0); [lia | cbn; lia]).
  pose proof (Zdigits2_ge (a * b) (Zdigits2 a - 1 + (Zdigits2 b - 1))
                ltac:(lia)) as Hge.
  rewrite Z.pow_add_r in Hge by lia.
  pose proof (pow2_pos (Zdigits2 a - 1) ltac:(lia)).
  pose proof (pow2_pos (Zdigits2 b - 1) ltac:(lia)).
  assert (2 ^ (Zdigits2 a - 1) * 2 ^ (Zdigits2 b - 1) ≤ a * b) by nia.
  lia.
Qed.

(** *** A product with a factor in [0, 1] *)

Lemma SFmul_le mq eq mx ex :
  canonical (Zpos mq) eq → canonical (Zpos mx) ex → ex ≤ 971 →
  Zpos mq * 2 ^ (eq + 1074) ≤ 2 ^ 1074 →
  SFleb (SFmul prec emax (S754_finite false mq eq) (S754_finite false mx ex))
        (S754_finite false mx ex) = true
  ∧ SFleb (S754_zero false)
          (SFmul prec emax (S754_finite false mq eq) (S754_finite false mx ex))
    = true.
Proof.
  intros Hq Hx Hex Hle. cbn [SFmul xorb].
  destruct (canonical_bounds _ _ Hq) as (Heq & Hdq & Hnq).
  destruct (canonical_bounds _ _ Hx) as (Hex' & Hdx & Hnx).
  apply (binary_round_aux_le 2148); try done; try lia.
  - rewrite Pos2Z.inj_mul.
    pose proof (Zdigits2_mul (Zpos mq) (Zpos mx) ltac:(lia) ltac:(lia)).
    rewrite fexp64_eq. lia.
  - rewrite Pos2Z.inj_mul.
    replace (eq + ex + 2148) with ((eq + 1074) + (ex + 1074)) by lia.
    replace (ex + 2148) with (1074 + (ex + 1074)) by lia.
    rewrite (Z.pow_add_r 2 (eq + 1074)), (Z.pow_add_r 2 1074) by lia.
    pose proof (pow2_pos (ex + 1074) ltac:(lia)).
    set (P := 2 ^ 1074) in *. set (Px := 2 ^ (ex + 1074)) in *.
    set (Pq := 2 ^ (eq + 1074)) in *.
    assert (Zpos mq * Pq * (Zpos mx * Px) ≤ P * (Zpos mx * Px)).
    { apply Z.mul_le_mono_nonneg_r; lia. }
    lia.
Qed.

(** *** A percentage divided by 100 *)

Lemma SFdiv_100_le mp ep :
  canonical (Zpos mp) ep →
  Zpos mp * 2 ^ (ep + 1074) ≤ Zpos mantissa_hundred * 2 ^ (-46 + 1074) →
  SFleb (SFdiv prec emax (S754_finite false mp ep) (S754_finite false mantissa_hundred (-46)))
        (S754_finite false mantissa_one (-52)) = true
  ∧ SFleb (S754_zero false)
          (SFdiv prec emax (S754_finite false mp ep)
             (S754_finite false mantissa_hundred (-46))) = true.
Proof.
  intros Hp Hle. cbn [SFdiv xorb]. unfold SFdiv_core_binary.
  destruct (canonical_bounds _ _ Hp) as (Hep & Hdp & Hnp).
  change (Zdigits2 (Zpos mantissa_hundred)) with 53.
  fold (fexp64 (Zdigits2 (Zpos mp) + ep - (53 + -46))).
  set (d1 := Zdigits2 (Zpos mp)) in *.
  change IntDef.Z.min with Z.min.
  set (e' := Z.min (fexp64 (d1 + ep - (53 + -46))) (ep - -46)).
  assert (-1074 ≤ e' ∧ e' ≤ ep + 46
          ∧ (e' = -1074 ∨ e' ≤ d1 + ep - 60)) as (He'1 & He'2 & He'3).
  { subst e'. rewrite fexp64_eq. lia. }
  set (s := ep - -46 - e').
  assert (0 ≤ s) as Hs by (subst s; lia).
  set (m' := match s with 0 => Zpos mp | Zpos _ => IntDef.Z.shiftl (Zpos mp) s
                     | Zneg _ => 0 end).
  assert (m' = Zpos mp * 2 ^ s) as Hm'.
  { subst m'. destruct s as [|ps|ps] eqn:Es; [cbn; lia | | lia].
    change IntDef.Z.shiftl with Z.shiftl.
    apply Z.shiftl_mul_pow2. lia. }
  clearbody m'.
  change IntDef.Z.div_eucl with Z.div_eucl.
  pose proof (Z.div_eucl_eq m' (Zpos mantissa_hundred) ltac:(lia)) as Hde.
  pose proof (Z.mod_pos_bound m' (Zpos mantissa_hundred) ltac:(lia)) as Hmb.
  unfold Z.modulo in Hmb.
  destruct (Z.div_eucl m' (Zpos mantissa_hundred)) as [q r].
  pose proof (pow2_pos s Hs) as Ps.
  assert (0 ≤ q) as Hq by nia.
  assert (new_location (Zpos mantissa_hundred) r
          = if r =? 0 then loc_Exact else loc_Inexact (2 * r ?= Zpos mantissa_hundred)) as ->
    by reflexivity.
  (* the quotient, scaled, stays below 1 *)
  assert (Zpos mantissa_hundred * (q * 2 ^ (e' + 1074)) + r * 2 ^ (e' + 1074)
          ≤ Zpos mantissa_hundred * 2 ^ 1074) as Hv.
  { pose proof (pow2_pos (e' + 1074) ltac:(lia)) as Pe.
    replace (Zpos mantissa_hundred * (q * 2 ^ (e' + 1074)) + r * 2 ^ (e' + 1074))
      with (m' * 2 ^ (e' + 1074)) by (rewrite Hde; ring).
    rewrite Hm', <- Z.mul_assoc, <- Z.pow_add_r by lia.
    replace (s + (e' + 1074)) with (46 + (ep + 1074)) by (subst s; lia).
    replace 1074 with (46 + (-46 + 1074)) at 2 by lia.
    rewrite (Z.pow_add_r 2 46 (ep + 1074)), (Z.pow_add_r 2 46 (-46 + 1074))
      by lia.
    pose proof (pow2_pos 46 ltac:(lia)).
    set (P46 := 2 ^ 46) in *.
    assert (Zpos mp * 2 ^ (ep + 1074) * P46
            ≤ Zpos mantissa_hundred * 2 ^ (-46 + 1074) * P46)
      by (apply Z.mul_le_mono_nonneg_r; lia).
    lia. }
  apply (binary_round_aux_le 1074); try done; try lia.
  - (* the quotient carries at least 53 bits unless it is subnormal *)
    rewrite fexp64_eq.
    destruct He'3 as [->|He'3]; [lia|].
    assert (2 ^ 52 ≤ q) as Hq52.
    { assert (2 ^ 105 ≤ m') as H105.
      { rewrite Hm'.
        destruct (Zdigits2_bounds (Zpos mp) ltac:(lia)) as [Lp _].
        fold d1 in Lp.
        replace 105 with ((d1 - 1) + (106 - d1)) by lia.
        rewrite Z.pow_add_r by lia.
        pose proof (pow2_pos (d1 - 1) ltac:(lia)).
        pose proof (pow2_pos (106 - d1) ltac:(lia)).
        assert (2 ^ (106 - d1) ≤ 2 ^ s)
          by (apply Z.pow_le_mono_r; subst s; lia).
        apply Z.mul_le_mono_nonneg; lia. }
      destruct (Z.le_gt_cases (2 ^ 52) q) as [|Hlt]; [done|].
      exfalso.
      assert (m' < Zpos mantissa_hundred * 2 ^ 52) as Hup.
      { rewrite Hde.
        assert (Zpos mantissa_hundred * q ≤ Zpos mantissa_hundred * (2 ^ 52 - 1))
          by (apply Z.mul_le_mono_nonneg_l; lia).
        lia. }
      revert H105 Hup. generalize m'. intros m0 H105 Hup.
      assert (Zpos mantissa_hundred * 2 ^ 52 ≤ 2 ^ 105) by (vm_compute; discriminate).
      lia. }
    pose proof (Zdigits2_ge q 52 ltac:(lia) Hq52). lia.
  - change (Zpos mantissa_one * 2 ^ (-52 + 1074)) with (2 ^ 52 * 2 ^ (-52 + 1074)).
    rewrite <- Z.pow_add_r by lia. change (52 + (-52 + 1074)) with 1074.
    pose proof (pow2_pos (e' + 1074) ltac:(lia)) as Pe.
    assert (Zpos mantissa_hundred * (q * 2 ^ (e' + 1074)) ≤ Zpos mantissa_hundred * 2 ^ 1074) as H
      by nia.
    apply Z.mul_le_mono_pos_l in H; [done | lia].
  - intros Hl.
    change (Zpos mantissa_one * 2 ^ (-52 + 1074)) with (2 ^ 52 * 2 ^ (-52 + 1074)).
    rewrite <- Z.pow_add_r by lia. change (52 + (-52 + 1074)) with 1074.
    pose proof (pow2_pos (e' + 1074) ltac:(lia)) as Pe.
    assert (0 < r) as Hr.
    { destruct (Z.eqb_spec r 0); [done | lia]. }
    assert (Zpos mantissa_hundred * (q * 2 ^ (e' + 1074)) < Zpos mantissa_hundred * 2 ^ 1074) as H
      by nia.
    apply Z.mul_lt_mono_pos_l in H; [done | lia].
Qed.

(** *** The fee as a binary64 value *)

Lemma SFleb_refl_of_nonneg r :
  SFleb (S754_zero false) r = true → SFleb r r = true.
Proof.
  destruct r as [s|s| |s m e]; try done; unfold SFleb; cbn [SFcompare].
  - by destruct s.
  - destruct s; [done|]. intros _.
    rewrite Z.compare_refl.
    change (PosDef.Pos.compare_cont Eq m m) with (Pos.compare m m).
    by rewrite Pos.compare_refl.
Qed.

Lemma percentage_of_price_bounds (p x : float) :
  (0 <=? p)%float = true → (p <=? 100)%float = true →
  (0 <=? x)%float = true → (x <? infinity)%float = true →
  (0 <=? p / 100 * x)%float = true ∧ (p / 100 * x <=? x)%float = true.
Proof.
  intros H0p Hp100 H0x Hxinf.
  pose proof (Prim2SF_valid p) as Vp.
  pose proof (Prim2SF_valid x) as Vx.
  pose proof (Prim2SF_valid (p / 100)) as Vq.
  rewrite leb_spec in H0p, Hp100, H0x. rewrite ltb_spec in Hxinf.
  rewrite !leb_spec, mul_spec. rewrite div_spec in *.
  change (Prim2SF 0) with (S754_zero false) in *.
  change (Prim2SF 100) with (S754_finite false mantissa_hundred (-46)) in *.
  change (Prim2SF infinity) with (S754_infinity false) in *.
  unfold SF64mul, SF64div in *.
  assert (SFleb (SFdiv prec emax (Prim2SF p) (S754_finite false mantissa_hundred (-46)))
            (S754_finite false mantissa_one (-52)) = true
          ∧ SFleb (S754_zero false)
              (SFdiv prec emax (Prim2SF p) (S754_finite false mantissa_hundred (-46)))
            = true) as [HQ1 HQ0].
  { destruct (Prim2SF p) as [sp|sp| |sp mp ep].
    - by destruct sp.
    - destruct sp; [vm_compute in H0p | vm_compute in Hp100]; discriminate.
    - vm_compute in H0p. discriminate.
    - destruct sp; [vm_compute in H0p; discriminate|].
      destruct (proj1 (valid_binary_finite _ _ _) Vp) as [Cp _].
      apply SFdiv_100_le; [done|].
      apply (SFleb_value 1074); [lia | done | reflexivity | done]. }
  destruct (SFdiv prec emax (Prim2SF p) (S754_finite false mantissa_hundred (-46)))
    as [sq|sq| |sq mq eq].
  - (* the rate is a zero *)
    destruct (Prim2SF x) as [sx|sx| |sx mx ex].
    + by destruct sq, sx.
    + destruct sx; [vm_compute in H0x | vm_compute in Hxinf]; discriminate.
    + vm_compute in H0x. discriminate.
    + destruct sx; [vm_compute in H0x; discriminate|]. by destruct sq.
  - destruct sq; [vm_compute in HQ0 | vm_compute in HQ1]; discriminate.
  - vm_compute in HQ0. discriminate.
  - destruct sq; [vm_compute in HQ0; discriminate|].
    destruct (proj1 (valid_binary_finite _ _ _) Vq) as [Cq _].
    destruct (Prim2SF x) as [sx|sx| |sx mx ex].
    + by destruct sx.
    + destruct sx; [vm_compute in H0x | vm_compute in Hxinf]; discriminate.
    + vm_compute in H0x. discriminate.
    + destruct sx; [vm_compute in H0x; discriminate|].
      destruct (proj1 (valid_binary_finite _ _ _) Vx) as [Cx Hex].
      assert (canonical (Zpos mantissa_one) (-52)) as C1 by reflexivity.
      pose proof (SFleb_value 1074 mq eq mantissa_one (-52) ltac:(lia) Cq C1 HQ1)
        as Hv.
      replace (Zpos mantissa_one * 2 ^ (-52 + 1074)) with (2 ^ 1074) in Hv
        by reflexivity.
      destruct (SFmul_le mq eq mx ex Cq Cx Hex Hv). done.
Qed.

(** ** The cancellation fee *)

Lemma fee_due_bounds fee_percentage remaining price' :
  (0 <=? price')%float = true → (price' <? infinity)%float = true →
  (0 <=? fee_percentage)%float = true →
  (fee_percentage <=? 100)%float = true →
  (0 <=? fee_due fee_percentage remaining price')%float = true
  ∧ (fee_due fee_percentage remaining price' <=? price')%float = true.
Proof.
  intros Hp Hfin H0 H100. unfold fee_due.
  destruct (remaining <=? timedelta_hours 1).
  - by apply percentage_of_price_bounds.
  - split; [reflexivity | done].
Qed.

(** C2, as stated, fails: the price is a Python float, and for the price
    [inf] (which is [>= 0]) and the fee percentage 0 a cancellation half
    an hour before pickup is charged [0 / 100 * inf], which is NaN: the
    fee is neither [>= 0] nor [<=] the price. *)
Lemma cancel_fee_of_infinite_price :
  let o := mk_Order 2 None (naive (15 * hour)) (naive (17 * hour))
             OrderStatus.created infinity 0%float 2 12 in
  let s := set_orders (insert 20 o) ex_store in
  (0 <=? price o)%float = true
  ∧ (0 <=? 0)%float = true ∧ (0 <=? 100)%float = true
  ∧ pickup_instant pkt o - (9 * hour + 1800000000) ≤ timedelta_hours 1
  ∧ ∃ s' resp,
      cancel_order_util.cancel_order 0%float pkt (9 * hour + 1800000000) 2 20
        (RoleMember UserRole.customer) s = (s', Ok (resp, 200))
      ∧ cancel_cancellation_fee resp = (0 / 100 * infinity)%float
      ∧ cancel_cancellation_fee resp = nan
      ∧ (0 <=? cancel_cancellation_fee resp)%float = false
      ∧ (cancel_cancellation_fee resp <=? price o)%float = false.
Proof.
  cbv zeta.
  split; [reflexivity|]. split; [reflexivity|]. split; [reflexivity|].
  split; [vm_compute; discriminate|].
  eexists _, _. split; [vm_compute; reflexivity|].
  cbn [cancel_cancellation_fee]. repeat split.
Qed.

(** C2, amended. A cancellation that passes the cutoff succeeds with the
    fee [fee_percentage / 100 * price], computed in binary64, when at most
    one hour is left until pickup, and with fee 0 when more is left; the
    fee is stored on the order; and for a finite [price >= 0] and
    [0 <= fee_percentage <= 100] it lies between 0 and the price. *)
Theorem cancel_order_fee
    fee_percentage karachi_utcoffset now user_id order_id role s u o :
  users s !! user_id = Some u →
  orders s !! order_id = Some o →
  cancel_order_util.order_filter user_id role o = true →
  now ≤ pickup_instant karachi_utcoffset o →
  let remaining := pickup_instant karachi_utcoffset o - now in
  ∃ s' resp,
    cancel_order_util.cancel_order fee_percentage karachi_utcoffset
      now user_id order_id role s = (s', Ok (resp, 200))
    ∧ cancellation_fee <$> orders s' !! order_id
      = Some (cancel_cancellation_fee resp)
    ∧ (remaining ≤ timedelta_hours 1 →
       cancel_cancellation_fee resp = (fee_percentage / 100 * price o)%float)
    ∧ (timedelta_hours 1 < remaining → cancel_cancellation_fee resp = 0%float)
    ∧ ((0 <=? price o)%float = true → (price o <? infinity)%float = true →
       (0 <=? fee_percentage)%float = true →
       (fee_percentage <=? 100)%float = true →
       (0 <=? cancel_cancellation_fee resp)%float = true
       ∧ (cancel_cancellation_fee resp <=? price o)%float = true).
Proof.
  intros Hu Ho Hf Hle remaining.
  rewrite (cancel_order_resolved _ _ _ _ _ _ _ u o) by done.
  rewrite bool_decide_eq_false_2 by lia. cbn zeta.
  eexists _, _. split; [reflexivity|]. cbn.
  fold remaining.
  split; [by rewrite lookup_alter_eq, Ho|].
  unfold fee_due at 1 2.
  split; [|split].
  - intros H. destruct (Z.leb_spec remaining (timedelta_hours 1)); [done | lia].
  - intros H. destruct (Z.leb_spec remaining (timedelta_hours 1)); [lia | done].
  - apply fee_due_bounds.
Qed.

Lemma cancel_order_fee_witness :
  let remaining := pickup_instant pkt (order_of_bea None OrderStatus.created)
                   - (9 * hour + 1800000000) in
  ∃ s' resp,
    cancel_order_util.cancel_order 10%float pkt (9 * hour + 1800000000) 2 7
      (RoleMember UserRole.customer) ex_store = (s', Ok (resp, 200))
    ∧ cancellation_fee <$> orders s' !! 7 = Some (cancel_cancellation_fee resp)
    ∧ (remaining ≤ timedelta_hours 1 →
       cancel_cancellation_fee resp = (10 / 100 * 1000)%float)
    ∧ (timedelta_hours 1 < remaining → cancel_cancellation_fee resp = 0%float)
    ∧ ((0 <=? 1000)%float = true → (1000 <? infinity)%float = true →
       (0 <=? 10)%float = true → (10 <=? 100)%float = true →
       (0 <=? cancel_cancellation_fee resp)%float = true
       ∧ (cancel_cancellation_fee resp <=? 1000)%float = true).
Proof.
  apply (cancel_order_fee 10%float pkt (9 * hour + 1800000000) 2 7
           (RoleMember UserRole.customer) ex_store bea
           (order_of_bea None OrderStatus.created)).
  - reflexivity.
  - reflexivity.
  - reflexivity.
  - vm_compute. discriminate.
Defined.

(** ** Cancelling an order that is already completed or cancelled *)

(** C3, as stated, fails: a completed order is cancelled by
    [cancel_order] and is set back to [created] by
    [update_order_status]; both calls succeed and change the order. *)
Lemma terminal_order_still_changes :
  status <$> orders ex_store !! 4 = Some OrderStatus.completed
  ∧ (let out :=
       cancel_order_util.cancel_order 10%float pkt (8 * hour) 9 4
         (RoleStr "admin") ex_store in
     is_Ok (snd out) = true
     ∧ status <$> orders (fst out) !! 4 = Some OrderStatus.cancelled)
  ∧ (let out := worker_service.update_order_status 5 4 "created" ex_store in
     is_Ok (snd out) = true
     ∧ status <$> orders (fst out) !! 4 = Some OrderStatus.created).
Proof. vm_compute. repeat split. Qed.

(** C3, amended. [cancel_order] does not read the order's status: on a
    resolved order that is already completed or cancelled it raises the
    ValidationError of the pickup cutoff, leaving the store unchanged, when
    the current instant is past the pickup time, and otherwise succeeds,
    setting the status to [cancelled] and storing the fee computed anew. *)
Theorem cancel_order_on_terminal_order
    fee_percentage karachi_utcoffset now user_id order_id role s u o :
  users s !! user_id = Some u →
  orders s !! order_id = Some o →
  cancel_order_util.order_filter user_id role o = true →
  terminal (status o) = true →
  let out :=
    cancel_order_util.cancel_order fee_percentage karachi_utcoffset
      now user_id order_id role s in
  (pickup_instant karachi_utcoffset o < now →
   out = (s, Raise (ValidationError "Cannot cancel order after pickup time"
                                    (Some "pickup_time"))))
  ∧ (now ≤ pickup_instant karachi_utcoffset o →
     is_Ok (snd out) = true
     ∧ orders (fst out) !! order_id
       = Some (cancelled_with
                 (fee_due fee_percentage
                    (pickup_instant karachi_utcoffset o - now) (price o)) o)).
Proof.
  intros Hu Ho Hf _ out. subst out.
  rewrite (cancel_order_resolved _ _ _ _ _ _ _ u o) by done.
  split; intros H.
  - by rewrite bool_decide_eq_true_2.
  - rewrite bool_decide_eq_false_2 by lia. cbn.
    split; [done|]. by rewrite lookup_alter_eq, Ho.
Qed.

Lemma cancel_order_on_terminal_order_witness :
  let o := order_of_bea (Some 5) OrderStatus.completed in
  let out :=
    cancel_order_util.cancel_order 10%float pkt (8 * hour) 2 4
      (RoleMember UserRole.customer) ex_store in
  (pickup_instant pkt o < 8 * hour →
   out = (ex_store,
          Raise (ValidationError "Cannot cancel order after pickup time"
                                 (Some "pickup_time"))))
  ∧ (8 * hour ≤ pickup_instant pkt o →
     is_Ok (snd out) = true
     ∧ orders (fst out) !! 4
       = Some (cancelled_with
                 (fee_due 10%float (pickup_instant pkt o - 8 * hour) (price o)) o)).
Proof.
  apply (cancel_order_on_terminal_order 10%float pkt (8 * hour) 2 4
           (RoleMember UserRole.customer) ex_store bea
           (order_of_bea (Some 5) OrderStatus.completed)).
  - reflexivity.
  - reflexivity.
  - reflexivity.
  - reflexivity.
Defined.

(** ** What a successful cancellation touches *)

(** C10. A successful [cancel_order] rewrites the targeted order with a new
    status and a new cancellation fee and nothing else: its customer,
    worker, pickup and delivery times, price, address and creator are as
    before, every other order is as before, and so are the other tables. *)
Theorem cancel_order_frame
    fee_percentage karachi_utcoffset now user_id order_id role s s' resp :
  cancel_order_util.cancel_order fee_percentage karachi_utcoffset
    now user_id order_id role s = (s', Ok resp) →
  ∃ o o',
    orders s !! order_id = Some o
    ∧ orders s' !! order_id = Some o'
    ∧ o' = with_cancellation_fee (cancel_cancellation_fee (fst resp))
             (with_status OrderStatus.cancelled o)
    ∧ customer_id o' = customer_id o
    ∧ worker_id o' = worker_id o
    ∧ pickup_time o' = pickup_time o
    ∧ delivery_time o' = delivery_time o
    ∧ price o' = price o
    ∧ address_id o' = address_id o
    ∧ created_by o' = created_by o
    ∧ (∀ j, j ≠ order_id → orders s' !! j = orders s !! j)
    ∧ users s' = users s
    ∧ customers s' = customers s
    ∧ order_status_history s' = order_status_history s.
Proof.
  intros H.
  pose proof (cancel_order_outcome fee_percentage karachi_utcoffset
                now user_id order_id role s) as Hout.
  rewrite H in Hout.
  inversion Hout as [| | |u o Hu Ho Hf Hle fee Hs]; subst; cbn.
  exists o, (cancelled_with fee o).
  split; [done|]. split; [by rewrite lookup_alter_eq, Ho|].
  repeat (split; [reflexivity|]).
  split; [|done].
  intros j Hj. by rewrite lookup_alter_ne.
Qed.

Lemma cancel_order_frame_witness :
  ∃ o o',
    orders ex_store !! 7 = Some o
    ∧ orders (fst (cancel_order_util.cancel_order 10%float pkt (8 * hour) 2 7
                     (RoleMember UserRole.customer) ex_store)) !! 7 = Some o'
    ∧ customer_id o' = customer_id o
    ∧ worker_id o' = worker_id o
    ∧ pickup_time o' = pickup_time o
    ∧ delivery_time o' = delivery_time o
    ∧ price o' = price o
    ∧ address_id o' = address_id o
    ∧ created_by o' = created_by o.
Proof.
  destruct (cancel_order_frame 10%float pkt (8 * hour) 2 7
              (RoleMember UserRole.customer) ex_store
              (fst (cancel_order_util.cancel_order 10%float pkt (8 * hour) 2 7
                      (RoleMember UserRole.customer) ex_store))
              ({| cancel_message := "Order cancelled by UserRole.customer Bea (ID: 2)";
                  cancel_cancellation_fee := 0%float |}, 200))
    as (o & o' & H1 & H2 & _ & H3 & H4 & H5 & H6 & H7 & H8 & H9 & _).
  - reflexivity.
  - exists o, o'.
    exact (conj H1 (conj H2 (conj H3 (conj H4 (conj H5 (conj H6
             (conj H7 (conj H8 H9)))))))).
Defined.

(** ** Whose orders a caller can cancel *)

(** With the member [UserRole.customer] as role, an order that does not
    exist and an order of another customer give the same answer. *)
Lemma cancel_order_customer_scoped
    fee_percentage karachi_utcoffset now user_id order_id s u :
  users s !! user_id = Some u →
  (orders s !! order_id = None
   ∨ ∃ o, orders s !! order_id = Some o ∧ customer_id o ≠ user_id) →
  cancel_order_util.cancel_order fee_percentage karachi_utcoffset
    now user_id order_id (RoleMember UserRole.customer) s
  = (s, Raise (NotFoundError "Order not found")).
Proof.
  intros Hu [Hn|(o & Ho & Hne)].
  - by eapply cancel_order_no_order.
  - eapply cancel_order_filtered; eauto.
    unfold cancel_order_util.order_filter, role_eq.
    rewrite bool_decide_eq_true_2 by done. by rewrite bool_decide_eq_false_2.
Qed.

(** With any other role value the query is by order id alone. *)
Lemma order_filter_unscoped user_id role o :
  role_eq role UserRole.customer = false →
  cancel_order_util.order_filter user_id role o = true.
Proof. intros H. unfold cancel_order_util.order_filter. by rewrite H. Qed.

Lemma role_eq_str s member : role_eq (RoleStr s) member = false.
Proof. reflexivity. Qed.

(** C5 at the value the customer route passes. The route hands
    [cancel_order] the string "customer"; the test of line 25 is then
    false, the query is not scoped, and customer 1 cancels order 7, which
    belongs to customer 2. *)
Theorem cancel_order_str_role_unscoped :
  customer_id <$> orders ex_store !! 7 = Some 2
  ∧ user_role <$> users ex_store !! 1 = Some UserRole.customer
  ∧ (let out :=
       cancel_order_util.cancel_order 10%float pkt (8 * hour) 1 7
         (RoleStr "customer") ex_store in
     snd out = Ok ({| cancel_message := "Order cancelled by customer Ali (ID: 1)";
                      cancel_cancellation_fee := 0%float |}, 200)
     ∧ status <$> orders (fst out) !! 7 = Some OrderStatus.cancelled)
  ∧ snd (cancel_order_util.cancel_order 10%float pkt (8 * hour) 1 7
           (RoleMember UserRole.customer) ex_store)
    = Raise (NotFoundError "Order not found").
Proof. vm_compute. repeat split. Qed.

(** ** claim_order and update_order_status: what each path returns *)

Lemma claim_order_unfold w order_id s :
  worker_service.claim_order w order_id s
  = match orders s !! order_id with
    | Some o =>
        if bool_decide (worker_id o = None)
        then (set_orders (alter (claimed_by w) order_id) s,
              Ok ({| order_message := "Order claimed successfully";
                     order_order_id := order_id |}, 200))
        else (s, Raise not_claimable_error)
    | None => (s, Raise not_claimable_error)
    end.
Proof.
  unfold worker_service.claim_order. run_request.
  destruct (orders s !! order_id) as [o|]; [|reflexivity].
  case_bool_decide; [|reflexivity].
  cbn. f_equal. unfold set_orders; cbn. f_equal. by rewrite alter_alter_eq.
Qed.

(** The claim succeeds exactly for a stored order without worker, whatever
    its status; it then records the worker and the status [claimed]. *)
Lemma claim_order_succeeds_iff w order_id s :
  is_Ok (snd (worker_service.claim_order w order_id s)) = true
  ↔ ∃ o, orders s !! order_id = Some o ∧ worker_id o = None.
Proof.
  rewrite claim_order_unfold.
  destruct (orders s !! order_id) as [o|] eqn:Ho.
  - case_bool_decide; cbn; split.
    + eauto.
    + done.
    + discriminate.
    + intros (o' & Ho' & Hw). congruence.
  - split; [discriminate|]. intros (o' & Ho' & _). discriminate.
Qed.

(** Both ways of failing, a missing order and an order that has a worker,
    end in the same error and the same store. *)
Lemma claim_order_fails w order_id s :
  (orders s !! order_id = None
   ∨ ∃ o w', orders s !! order_id = Some o ∧ worker_id o = Some w') →
  worker_service.claim_order w order_id s
  = (s, Raise (NotFoundError "Order not available for claiming")).
Proof.
  rewrite claim_order_unfold.
  intros [Hn|(o & w' & Ho & Hw)].
  - by rewrite Hn.
  - rewrite Ho. rewrite bool_decide_eq_false_2; [done | congruence].
Qed.

Lemma claim_order_succeeds w order_id s o :
  orders s !! order_id = Some o →
  worker_id o = None →
  ∃ s', worker_service.claim_order w order_id s
        = (s', Ok ({| order_message := "Order claimed successfully";
                      order_order_id := order_id |}, 200))
        ∧ orders s' !! order_id
          = Some (with_status OrderStatus.claimed (with_worker_id (Some w) o))
        ∧ ∀ j, j ≠ order_id → orders s' !! j = orders s !! j.
Proof.
  intros Ho Hw. rewrite claim_order_unfold, Ho.
  rewrite bool_decide_eq_true_2 by done.
  eexists. split; [reflexivity|]. cbn. split.
  - by rewrite lookup_alter_eq, Ho.
  - intros j Hj. by rewrite lookup_alter_ne.
Qed.

Lemma update_order_status_unfold w order_id st s :
  worker_service.update_order_status w order_id st s
  = match orders s !! order_id with
    | Some o =>
        if bool_decide (worker_id o = Some w)
        then match OrderStatus.getitem (str_lower st) with
             | Some new_status =>
                 (set_orders (alter (with_status new_status) order_id) s,
                  Ok ({| status_message := "Order status updated";
                         status_order_id := order_id;
                         status_status := OrderStatus.value new_status |}, 200))
             | None => (s, Raise (ValidationError "Invalid status" (Some "status")))
             end
        else (s, Raise (NotFoundError
                          "Order not found or not assigned to this worker"))
    | None => (s, Raise (NotFoundError
                           "Order not found or not assigned to this worker"))
    end.
Proof.
  unfold worker_service.update_order_status. run_request.
  destruct (orders s !! order_id) as [o|]; [|reflexivity].
  case_bool_decide; [|reflexivity].
  by destruct (OrderStatus.getitem (str_lower st)).
Qed.

(** Every member is found under its own name: any status can be asked
    for. *)
Lemma getitem_value st : OrderStatus.getitem (OrderStatus.value st) = Some st.
Proof. by destruct st. Qed.

(** C4 at an order that has no worker and is not in status [created].
    Order 8 was cancelled before any worker took it; the query of
    [claim_order] looks at [worker_id] alone, so the claim succeeds and the
    cancelled order becomes [claimed], although [list_unclaimed_orders]
    does not offer it. *)
Theorem claim_order_ignores_status :
  orders ex_store !! 8 = Some (order_of_bea None OrderStatus.cancelled)
  ∧ (let out := worker_service.claim_order 5 8 ex_store in
     snd out = Ok ({| order_message := "Order claimed successfully";
                      order_order_id := 8 |}, 200)
     ∧ orders (fst out) !! 8
       = Some (order_of_bea (Some 5) OrderStatus.claimed))
  ∧ worker_service.unclaimed (order_of_bea None OrderStatus.cancelled) = false.
Proof. vm_compute. repeat split. Qed.

(** C6 at a backward step and at [cancelled]. Order 3 is [delivered] and
    assigned to worker 5: [update_order_status] sets it back to [created]
    when asked to, and sets it to [cancelled] when asked to. *)
Theorem update_order_status_any_member :
  status <$> orders ex_store !! 3 = Some OrderStatus.delivered
  ∧ (let out := worker_service.update_order_status 5 3 "created" ex_store in
     is_Ok (snd out) = true
     ∧ status <$> orders (fst out) !! 3 = Some OrderStatus.created)
  ∧ (let out := worker_service.update_order_status 5 3 "cancelled" ex_store in
     is_Ok (snd out) = true
     ∧ status <$> orders (fst out) !! 3 = Some OrderStatus.cancelled).
Proof. vm_compute. repeat split. Qed.


(** ** The status history *)

(** C8, as stated, fails: after a successful claim, a successful status
    update and a successful cancellation the history table has no row. *)
Lemma status_mutations_write_no_history :
  order_status_history ex_store = ∅
  ∧ (let out := run_status_call 10%float pkt (ClaimOrder 5 7) ex_store in
     is_Ok (snd out) = true
     ∧ status <$> orders (fst out) !! 7 = Some OrderStatus.claimed
     ∧ order_status_history (fst out) = ∅)
  ∧ (let out :=
       run_status_call 10%float pkt (UpdateOrderStatus 5 3 "completed") ex_store in
     is_Ok (snd out) = true
     ∧ status <$> orders (fst out) !! 3 = Some OrderStatus.completed
     ∧ order_status_history (fst out) = ∅)
  ∧ (let out :=
       run_status_call 10%float pkt
         (CancelOrder (8 * hour) 2 7 (RoleStr "customer")) ex_store in
     is_Ok (snd out) = true
     ∧ status <$> orders (fst out) !! 7 = Some OrderStatus.cancelled
     ∧ order_status_history (fst out) = ∅).
Proof. vm_compute. repeat split. Qed.

Lemma map_result_fst {A B} (f : A → B) out : fst (map_result f out) = fst out.
Proof. by destruct out as [s [a|e]]. Qed.

Lemma map_result_raise {A B} (f : A → B) out e :
  snd (map_result f out) = Raise e → snd out = Raise e.
Proof. destruct out as [s [a|e']]; cbn; congruence. Qed.

(** C8, amended. No status mutation writes to the history: claim, status
    update and cancellation, successful or not, leave the
    OrderStatusHistory table as it was. *)
Theorem status_call_keeps_history fee_percentage karachi_utcoffset c s :
  order_status_history (fst (run_status_call fee_percentage karachi_utcoffset c s))
  = order_status_history s.
Proof.
  destruct c as [now user_id order_id role|w order_id|w order_id st];
    unfold run_status_call; rewrite map_result_fst.
  - by destruct (cancel_order_outcome fee_percentage karachi_utcoffset
                   now user_id order_id role s).
  - rewrite claim_order_unfold.
    destruct (orders s !! order_id); [case_bool_decide|]; done.
  - rewrite update_order_status_unfold.
    destruct (orders s !! order_id); [case_bool_decide|]; try done.
    by destruct (OrderStatus.getitem (str_lower st)).
Qed.

(** ** Failed calls *)

(** C9. When [cancel_order], [claim_order] or [update_order_status] raises,
    the store after the call is the store before it. *)
Theorem failed_status_call_keeps_store fee_percentage karachi_utcoffset c s e :
  snd (run_status_call fee_percentage karachi_utcoffset c s) = Raise e →
  fst (run_status_call fee_percentage karachi_utcoffset c s) = s.
Proof.
  destruct c as [now user_id order_id role|w order_id|w order_id st];
    unfold run_status_call; intros H; apply map_result_raise in H;
    rewrite map_result_fst.
  - by destruct (cancel_order_outcome fee_percentage karachi_utcoffset
                   now user_id order_id role s).
  - rewrite claim_order_unfold in *.
    destruct (orders s !! order_id); [case_bool_decide|]; done.
  - rewrite update_order_status_unfold in *.
    destruct (orders s !! order_id); [case_bool_decide|]; try done.
    by destruct (OrderStatus.getitem (str_lower st)).
Qed.

Lemma failed_status_call_keeps_store_witness :
  fst (run_status_call 10%float pkt (UpdateOrderStatus 5 3 "shipped") ex_store)
  = ex_store.
Proof.
  apply (failed_status_call_keeps_store 10%float pkt
           (UpdateOrderStatus 5 3 "shipped") ex_store
           (ValidationError "Invalid status" (Some "status"))).
  reflexivity.
Defined.

(** The errors these three calls raise are NotFoundError and
    ValidationError, no other. *)
Lemma status_call_errors fee_percentage karachi_utcoffset c s e :
  snd (run_status_call fee_percentage karachi_utcoffset c s) = Raise e →
  (∃ m, e = NotFoundError m) ∨ (∃ m f, e = ValidationError m f).
Proof.
  destruct c as [now user_id order_id role|w order_id|w order_id st];
    unfold run_status_call; intros H; apply map_result_raise in H.
  - destruct (cancel_order_outcome fee_percentage karachi_utcoffset
                now user_id order_id role s); cbn in H; simplify_eq;
      unfold after_pickup_error; eauto.
  - rewrite claim_order_unfold in H. unfold not_claimable_error in H.
    destruct (orders s !! order_id); [case_bool_decide|];
      cbn in H; simplify_eq; eauto.
  - rewrite update_order_status_unfold in H.
    destruct (orders s !! order_id); [case_bool_decide|];
      [destruct (OrderStatus.getitem (str_lower st))| |];
      cbn in H; simplify_eq; eauto.
Qed.

(** ** Creating an order *)

Lemma ensure_aware_aware dt :
  ∃ off, tzinfo (customer_service.ensure_aware dt) = Some off.
Proof.
  unfold customer_service.ensure_aware.
  destruct (tzinfo dt) as [off|] eqn:E; cbn; eauto.
Qed.

Lemma datetime_now_utc_aware now :
  tzinfo (datetime_now_utc now) = Some timezone_utc.
Proof. reflexivity. Qed.

Ltac create_cases :=
  repeat match goal with
    | |- context [datetime_le ?a ?b] =>
        let E := fresh "E" in
        destruct (datetime_le a b) as [[|]|?] eqn:E; cbn
    | |- context [match customers ?s !! ?k with _ => _ end] =>
        destruct (customers s !! k) as [?|]; cbn
    | |- context [bool_decide ?P] => destruct (bool_decide P); cbn
    | |- context [match addresses ?c with _ => _ end] =>
        destruct (addresses c) as [|? ?]; cbn
    end.

Ltac created_row :=
  split;
  [ intros ?; first [discriminate | done | congruence]
  | intros resp code Hok; first
      [ discriminate
      | injection Hok as <- <-; cbn;
        split; [first [assumption | reflexivity]|];
        split; [apply next_order_id_fresh|];
        eexists; split; [apply lookup_insert_eq|];
        repeat split ] ].

(** What the three creation paths have in common. A delivery time that is
    not after the pickup time ends the call with a ValidationError and an
    unchanged store. An order is stored only after the comparison has
    found the delivery time after the pickup time; it is a new row in
    status [created], and its two times are what the columns keep of the
    compared values. *)
Lemma create_order_checks_then_stores c s :
  let out := run_create_call c s in
  (datetime_le (compared_delivery c) (compared_pickup c) = Ok true →
   fst out = s ∧ is_ValidationError (snd out) = true)
  ∧ (∀ resp code, snd out = Ok (resp, code) →
       datetime_le (compared_delivery c) (compared_pickup c) = Ok false
       ∧ orders s !! order_order_id resp = None
       ∧ ∃ o, orders (fst out) !! order_order_id resp = Some o
              ∧ status o = OrderStatus.created
              ∧ pickup_time o = column_DateTime (compared_pickup c)
              ∧ delivery_time o = column_DateTime (compared_delivery c)).
Proof.
  destruct c as [now cid p d pr a|w cid p d pr|cid w p d pr by' a]; cbn zeta;
    unfold run_create_call, compared_delivery, compared_pickup.
  - unfold customer_service.create_order_for_customer. cbn zeta.
    destruct (ensure_aware_aware p) as [op Hp].
    run_request.
    rewrite (datetime_le_aware _ _ _ _ Hp (datetime_now_utc_aware now)).
    case_bool_decide; cbn.
    + split; [done|]. intros ? ? ?. discriminate.
    + create_cases; created_row.
  - unfold worker_service.create_order_for_customer. run_request.
    create_cases; created_row.
  - unfold admin_service.create_order_for_customer. run_request.
    create_cases; created_row.
Qed.

(** When the two compared values carry the same zone information (both
    naive, or both with the same offset), the stored readings are in the
    order of the compared values. *)
Lemma stored_times_keep_order p d :
  tzinfo p = tzinfo d →
  datetime_le d p = Ok false →
  datetime_le (column_DateTime d) (column_DateTime p) = Ok false.
Proof.
  unfold datetime_le, datetime_compare, column_DateTime, utc_instant. cbn.
  intros Htz. rewrite Htz. destruct (tzinfo d) as [off|]; [|done].
  destruct (Z.compare_spec (wall d - off) (wall p - off));
    destruct (Z.compare_spec (wall d) (wall p)); try done; lia.
Qed.

(** C7 at a pickup time and a delivery time with different UTC offsets.
    Pickup 14:00+05:00 is 09:00 UTC and delivery 12:00+00:00 is later, so
    the comparison of every creation path lets the order through; the
    columns keep the readings 14:00 and 12:00, and the stored order has its
    delivery time before its pickup time. *)
Theorem create_order_mixed_offsets_stored_reversed :
  let pickup := {| wall := 14 * hour; tzinfo := Some (5 * hour) |} in
  let delivery := at_utc (12 * hour) in
  datetime_le delivery pickup = Ok false
  ∧ (let out :=
       admin_service.create_order_for_customer 2 None pickup delivery
         300%float 9 12 ex_store in
     snd out = Ok ({| order_message := "Order created by admin";
                      order_order_id := 9 |}, 201)
     ∧ ∃ o, orders (fst out) !! 9 = Some o
            ∧ status o = OrderStatus.created
            ∧ datetime_le (delivery_time o) (pickup_time o) = Ok true)
  ∧ (let out :=
       customer_service.create_order_for_customer (8 * hour) 2 pickup delivery
         300%float 12 ex_store in
     snd out = Ok ({| order_message := "Order created successfully";
                      order_order_id := 9 |}, 201)
     ∧ ∃ o, orders (fst out) !! 9 = Some o
            ∧ status o = OrderStatus.created
            ∧ datetime_le (delivery_time o) (pickup_time o) = Ok true)
  ∧ (let out :=
       worker_service.create_order_for_customer 5 2 pickup delivery
         300%float ex_store in
     snd out = Ok ({| order_message := "Order created by worker";
                      order_order_id := 9 |}, 201)
     ∧ ∃ o, orders (fst out) !! 9 = Some o
            ∧ status o = OrderStatus.created
            ∧ datetime_le (delivery_time o) (pickup_time o) = Ok true).
Proof.
  cbv zeta. split; [reflexivity|].
  split; [|split]; (split; [reflexivity|]); eexists;
    (split; [vm_compute; reflexivity|]); split; reflexivity.
Qed.

(** ** Concrete runs *)

(** A customer creates an order two hours ahead, delivery four hours
    ahead, price 1000: it is stored under a new key, in status
    [created]. *)
Example customer_creates_order :
  let out :=
    customer_service.create_order_for_customer (8 * hour) 1
      (naive (10 * hour)) (naive (12 * hour)) 1000%float 11 ex_store in
  snd out = Ok ({| order_message := "Order created successfully";
                   order_order_id := 9 |}, 201)
  ∧ orders (fst out) !! 9
    = Some (mk_Order 1 None (naive (10 * hour)) (naive (12 * hour))
              OrderStatus.created 1000%float 0%float 1 11).
Proof. vm_compute. repeat split. Qed.

(** Cancelled by its owner two hours before pickup: no fee. Cancelled
    thirty minutes before pickup: fee_percentage / 100 * 1000. *)
Example cancel_outside_then_inside_grace_window :
  snd (cancel_order_util.cancel_order 10%float pkt (8 * hour) 2 7
         (RoleMember UserRole.customer) ex_store)
  = Ok ({| cancel_message := "Order cancelled by UserRole.customer Bea (ID: 2)";
           cancel_cancellation_fee := 0%float |}, 200)
  ∧ snd (cancel_order_util.cancel_order 10%float pkt (9 * hour + 1800000000) 2 7
           (RoleMember UserRole.customer) ex_store)
    = Ok ({| cancel_message := "Order cancelled by UserRole.customer Bea (ID: 2)";
             cancel_cancellation_fee := (10 / 100 * 1000)%float |}, 200).
Proof. vm_compute. repeat split. Qed.

(** A naive pickup time is read as Karachi time: 15:00 there is 10:00 UTC,
    so at 10:30 UTC the order can no longer be cancelled, and at 09:30 UTC
    it is cancelled with the fee. *)
Example naive_pickup_time_is_karachi_time :
  let s := set_orders (insert 20 (mk_Order 2 None (naive (15 * hour))
                                    (naive (17 * hour)) OrderStatus.created
                                    1000%float 0%float 2 12)) ex_store in
  snd (cancel_order_util.cancel_order 10%float pkt (10 * hour + 1800000000) 9 20
         (RoleStr "admin") s)
  = Raise (ValidationError "Cannot cancel order after pickup time"
                           (Some "pickup_time"))
  ∧ snd (cancel_order_util.cancel_order 10%float pkt (9 * hour + 1800000000) 9 20
           (RoleStr "admin") s)
    = Ok ({| cancel_message := "Order cancelled by admin Root (ID: 9)";
             cancel_cancellation_fee := (10 / 100 * 1000)%float |}, 200).
Proof. vm_compute. repeat split. Qed.

(** Claiming an order that has a worker, and claiming an order that does
    not exist, give the same NotFoundError. *)
Example claim_taken_or_missing :
  worker_service.claim_order 6 3 ex_store
  = (ex_store, Raise (NotFoundError "Order not available for claiming"))
  ∧ worker_service.claim_order 6 99 ex_store
    = (ex_store, Raise (NotFoundError "Order not available for claiming")).
Proof. split; apply claim_order_fails; [right|left]; [|reflexivity].
  exists (order_of_bea (Some 5) OrderStatus.delivered), 5. by split.
Qed.

(** A status string outside the enumeration is a ValidationError on field
    [status]; the name is matched without regard to case. *)
Example update_status_unknown_and_uppercase :
  snd (worker_service.update_order_status 5 3 "shipped" ex_store)
  = Raise (ValidationError "Invalid status" (Some "status"))
  ∧ snd (worker_service.update_order_status 5 3 "COMPLETED" ex_store)
    = Ok ({| status_message := "Order status updated";
             status_order_id := 3;
             status_status := "completed" |}, 200).
Proof. vm_compute. repeat split. Qed.

(** Lower-casing is Python's, by code point: the Kelvin sign U+212A
    lower-cases to the letter k, so a status spelled with it is
    accepted. *)
Example update_status_kelvin_sign :
  snd (worker_service.update_order_status 5 3 "PICKED_UP" ex_store)
  = Ok ({| status_message := "Order status updated";
           status_order_id := 3;
           status_status := "picked_up" |}, 200).
Proof. vm_compute. reflexivity. Qed.

(** A worker creates orders for the customers assigned to that worker
    only; the order takes the customer's first address. *)
Example worker_creates_for_assigned_customer :
  snd (worker_service.create_order_for_customer 5 1
         (at_utc (10 * hour)) (at_utc (12 * hour)) 300%float ex_store)
  = Raise (ValidationError "Customer not assigned to this worker" None)
  ∧ address_id
      <$> orders (fst (worker_service.create_order_for_customer 5 2
                         (at_utc (10 * hour)) (at_utc (12 * hour)) 300%float
                         ex_store)) !! 9
    = Some 12.
Proof. vm_compute. repeat split. Qed.

(** On the admin path an aware pickup time with a naive delivery time is
    neither accepted nor rejected as a validation failure: the comparison
    itself raises. *)
Example admin_create_mixed_datetimes :
  admin_service.create_order_for_customer 2 (Some 5)
    (at_utc (10 * hour)) (naive (12 * hour)) 300%float 9 12 ex_store
  = (ex_store, Raise (TypeError naive_aware_compare)).
Proof. reflexivity. Qed.

(** * Further properties of the services *)

(** ** Listing and claiming *)

Lemma NoDup_map_filter {A B} (f : A → B) (p : A → bool) (l : list A) :
  NoDup (List.map f l) → NoDup (List.map f (List.filter p l)).
Proof.
  induction l as [|a l IH]; cbn; [done|].
  intros Hnd. apply NoDup_cons in Hnd as [Hnotin Hnd].
  destruct (p a); cbn; [|by apply IH].
  apply NoDup_cons. split; [|by apply IH].
  intros Hin. apply Hnotin.
  apply list_elem_of_In in Hin. apply list_elem_of_In.
  apply in_map_iff in Hin as (x & Hx & Hin).
  apply in_map_iff. exists x. split; [done|].
  apply filter_In in Hin. tauto.
Qed.

Lemma unclaimed_rows_unfold s :
  unclaimed_rows s
  = List.map (fun kv => unclaimed_row_of (fst kv) (snd kv))
      (List.filter (fun kv => worker_service.unclaimed (snd kv))
                   (map_to_list (orders s))).
Proof. reflexivity. Qed.

Lemma unclaimed_row_listed s row :
  In row (unclaimed_rows s)
  ↔ ∃ id o, orders s !! id = Some o
            ∧ worker_id o = None ∧ status o = OrderStatus.created
            ∧ row = unclaimed_row_of id o.
Proof.
  rewrite unclaimed_rows_unfold, in_map_iff. split.
  - intros ([id o] & <- & Hin). apply filter_In in Hin as [Hin Hun].
    apply list_elem_of_In, elem_of_map_to_list in Hin.
    unfold worker_service.unclaimed in Hun. cbn in Hun.
    apply andb_true_iff in Hun as [Hw Hs].
    apply bool_decide_eq_true in Hw, Hs. exists id, o. done.
  - intros (id & o & Ho & Hw & Hs & ->). exists (id, o). split; [done|].
    apply filter_In. split.
    + by apply list_elem_of_In, elem_of_map_to_list.
    + unfold worker_service.unclaimed. cbn.
      by rewrite !bool_decide_eq_true_2.
Qed.

Lemma unclaimed_id_listed s id :
  In id (unclaimed_ids s)
  ↔ ∃ o, orders s !! id = Some o
         ∧ worker_id o = None ∧ status o = OrderStatus.created.
Proof.
  unfold unclaimed_ids. rewrite in_map_iff. split.
  - intros (row & <- & Hin). apply unclaimed_row_listed in Hin
      as (id' & o & Ho & Hw & Hs & ->). cbn. eauto.
  - intros (o & Ho & Hw & Hs). exists (unclaimed_row_of id o). split; [done|].
    apply unclaimed_row_listed. eauto 6.
Qed.

(** X1. [list_unclaimed_orders] answers 200 without touching the store;
    its rows are, once each, the stored orders that have no worker and are
    in status [created], each row carrying that order's id, times, price
    and customer. *)
Theorem list_unclaimed_orders_exact s :
  worker_service.list_unclaimed_orders s = (s, Ok (unclaimed_rows s, 200))
  ∧ NoDup (unclaimed_ids s)
  ∧ (∀ row, In row (unclaimed_rows s)
      ↔ ∃ id o, orders s !! id = Some o
                ∧ worker_id o = None ∧ status o = OrderStatus.created
                ∧ row = unclaimed_row_of id o).
Proof.
  split; [reflexivity|]. split; [|apply unclaimed_row_listed].
  unfold unclaimed_ids. rewrite unclaimed_rows_unfold, List.map_map. cbn.
  apply (NoDup_map_filter fst), NoDup_fst_map_to_list.
Qed.

(** X2. An order that [list_unclaimed_orders] shows can be claimed by any
    worker; once claimed it is no longer shown, and the claim neither adds
    nor removes any other order of the listing. *)
Theorem listed_order_claimable s w id :
  In id (unclaimed_ids s) →
  ∃ s',
    worker_service.claim_order w id s
    = (s', Ok ({| order_message := "Order claimed successfully";
                  order_order_id := id |}, 200))
    ∧ ¬ In id (unclaimed_ids s')
    ∧ (∀ j, j ≠ id → In j (unclaimed_ids s') ↔ In j (unclaimed_ids s)).
Proof.
  intros Hin. apply unclaimed_id_listed in Hin as (o & Ho & Hw & Hs).
  destruct (claim_order_succeeds w id s o Ho Hw) as (s' & Hrun & Hnew & Hframe).
  exists s'. split; [done|]. split.
  - rewrite unclaimed_id_listed. intros (o' & Ho' & Hw' & _).
    rewrite Hnew in Ho'. injection Ho' as <-. discriminate.
  - intros j Hj. rewrite !unclaimed_id_listed. by rewrite (Hframe j Hj).
Qed.

Lemma listed_order_claimable_witness :
  ∃ s',
    worker_service.claim_order 5 7 ex_store
    = (s', Ok ({| order_message := "Order claimed successfully";
                  order_order_id := 7 |}, 200))
    ∧ ¬ In 7 (unclaimed_ids s')
    ∧ (∀ j, j ≠ 7 → In j (unclaimed_ids s') ↔ In j (unclaimed_ids ex_store)).
Proof.
  apply (listed_order_claimable ex_store 5 7).
  vm_compute. by left.
Defined.

(** X3. A claim is exclusive: after a successful claim every further claim
    of the same order, by the same or another worker, raises NotFoundError
    and leaves the store as the first claim left it, with the first
    claimant as the order's worker. *)
Theorem claim_order_exclusive s w id s' resp w2 :
  worker_service.claim_order w id s = (s', Ok resp) →
  worker_service.claim_order w2 id s'
  = (s', Raise (NotFoundError "Order not available for claiming"))
  ∧ worker_id <$> orders s' !! id = Some (Some w).
Proof.
  rewrite claim_order_unfold.
  destruct (orders s !! id) as [o|] eqn:Ho; [|discriminate].
  case_bool_decide; [|discriminate].
  intros [= <- _].
  assert (orders (set_orders (alter (claimed_by w) id) s) !! id
          = Some (claimed_by w o)) as Hnew.
  { cbn. by rewrite lookup_alter_eq, Ho. }
  split; [|by rewrite Hnew].
  apply claim_order_fails. right. exists (claimed_by w o), w. done.
Qed.

Lemma claim_order_exclusive_witness :
  worker_service.claim_order 6 7 (fst (worker_service.claim_order 5 7 ex_store))
  = (fst (worker_service.claim_order 5 7 ex_store),
     Raise (NotFoundError "Order not available for claiming"))
  ∧ worker_id <$> orders (fst (worker_service.claim_order 5 7 ex_store)) !! 7
    = Some (Some 5).
Proof.
  apply (claim_order_exclusive ex_store 5 7
           (fst (worker_service.claim_order 5 7 ex_store))
           ({| order_message := "Order claimed successfully";
               order_order_id := 7 |}, 200) 6).
  reflexivity.
Defined.

(** ** Updating a status *)

Lemma OrderStatus_getitem_Some name member :
  OrderStatus.getitem name = Some member ↔ name = OrderStatus.value member.
Proof.
  split.
  - unfold OrderStatus.getitem, OrderStatus.members. cbn [List.find].
    repeat match goal with
      | |- context [String.eqb ?a name] =>
          destruct (String.eqb_spec a name) as [<-|_]; [by intros [= <-]|]
      end.
    discriminate.
  - intros ->. apply getitem_value.
Qed.

(** X4. [update_order_status] is for the order's own worker: on an order
    that does not exist, has no worker or has another worker it raises
    NotFoundError and changes nothing, whatever the status string, valid
    or not. *)
Theorem update_order_status_own_orders_only w id st s :
  (orders s !! id = None
   ∨ ∃ o, orders s !! id = Some o ∧ worker_id o ≠ Some w) →
  worker_service.update_order_status w id st s
  = (s, Raise (NotFoundError "Order not found or not assigned to this worker")).
Proof.
  rewrite update_order_status_unfold.
  intros [Hn|(o & Ho & Hw)].
  - by rewrite Hn.
  - rewrite Ho. by rewrite bool_decide_eq_false_2.
Qed.

Lemma update_order_status_own_orders_only_witness :
  worker_service.update_order_status 6 3 "completed" ex_store
  = (ex_store,
     Raise (NotFoundError "Order not found or not assigned to this worker")).
Proof.
  apply (update_order_status_own_orders_only 6 3 "completed" ex_store).
  right. exists (order_of_bea (Some 5) OrderStatus.delivered).
  split; [reflexivity | discriminate].
Defined.

(** X5. [update_order_status] succeeds exactly when the order is assigned
    to the calling worker and the status string, lower-cased, is the name
    of one of the seven statuses. *)
Theorem update_order_status_succeeds_iff w id st s :
  is_Ok (snd (worker_service.update_order_status w id st s)) = true
  ↔ (∃ o, orders s !! id = Some o ∧ worker_id o = Some w)
    ∧ (∃ member, str_lower st = OrderStatus.value member).
Proof.
  rewrite update_order_status_unfold.
  destruct (orders s !! id) as [o|] eqn:Ho.
  2: { cbn. split; [discriminate|]. intros [(o & ? & _) _]. discriminate. }
  case_bool_decide as Hw.
  2: { cbn. split; [discriminate|]. intros [(o' & ? & ?) _]. congruence. }
  destruct (OrderStatus.getitem (str_lower st)) as [member|] eqn:Hg; cbn.
  - apply OrderStatus_getitem_Some in Hg. split; [|done].
    intros _. split; eauto.
  - split; [discriminate|]. intros [_ (member & Hm)].
    apply OrderStatus_getitem_Some in Hm. congruence.
Qed.

(** X6. A successful [update_order_status] answers 200 with the order id
    and the lower-cased status string, rewrites the status of the targeted
    order to the member of that name, and touches nothing else: the order's
    other fields, every other order and the other tables are as before. *)
Theorem update_order_status_effect w id st s s' resp code :
  worker_service.update_order_status w id st s = (s', Ok (resp, code)) →
  code = 200
  ∧ status_order_id resp = id
  ∧ status_status resp = str_lower st
  ∧ ∃ o member,
      orders s !! id = Some o
      ∧ OrderStatus.value member = str_lower st
      ∧ s' = set_orders (insert id (with_status member o)) s.
Proof.
  rewrite update_order_status_unfold.
  destruct (orders s !! id) as [o|] eqn:Ho; [|discriminate].
  case_bool_decide; [|discriminate].
  destruct (OrderStatus.getitem (str_lower st)) as [member|] eqn:Hg;
    [|discriminate].
  apply OrderStatus_getitem_Some in Hg.
  intros [= <- <- <-]. cbn. repeat (split; [done|]).
  exists o, member. split; [done|]. split; [done|].
  unfold set_orders. f_equal.
  apply map_eq. intros j. destruct (decide (id = j)) as [<-|Hne].
  - by rewrite lookup_alter_eq, lookup_insert_eq, Ho.
  - by rewrite lookup_alter_ne, lookup_insert_ne.
Qed.

Lemma update_order_status_effect_witness :
  (200 : Z) = 200
  ∧ status_order_id (mk_StatusResponse "Order status updated" 3 "completed") = 3
  ∧ status_status (mk_StatusResponse "Order status updated" 3 "completed")
    = str_lower "Completed"
  ∧ ∃ o member,
      orders ex_store !! 3 = Some o
      ∧ OrderStatus.value member = str_lower "Completed"
      ∧ fst (worker_service.update_order_status 5 3 "Completed" ex_store)
        = set_orders (insert 3 (with_status member o)) ex_store.
Proof.
  apply (update_order_status_effect 5 3 "Completed" ex_store
           (fst (worker_service.update_order_status 5 3 "Completed" ex_store))
           (mk_StatusResponse "Order status updated" 3 "completed") 200).
  reflexivity.
Defined.

(** ** Creating an order, continued *)

Lemma datetime_le_instants a b oa ob :
  tzinfo a = Some oa → tzinfo b = Some ob →
  datetime_le a b = Ok (bool_decide (instant_of a ≤ instant_of b)).
Proof.
  intros Ha Hb. rewrite (datetime_le_aware a b oa ob Ha Hb).
  unfold instant_of, utc_instant. by rewrite Ha, Hb.
Qed.

Lemma customer_create_unfold now cid p d pr a s :
  customer_service.create_order_for_customer now cid p d pr a s
  = if bool_decide (instant_of (customer_service.ensure_aware p) ≤ now)
    then (s, Raise (ValidationError "Pickup time must be in the future"
                                    (Some "pickup_time")))
    else if bool_decide (instant_of (customer_service.ensure_aware d)
                         ≤ instant_of (customer_service.ensure_aware p))
    then (s, Raise (ValidationError "Delivery time must be after pickup time"
                                    (Some "delivery_time")))
    else (set_orders (insert (next_order_id s) (customer_order cid p d pr a)) s,
          Ok ({| order_message := "Order created successfully";
                 order_order_id := next_order_id s |}, 201)).
Proof.
  unfold customer_service.create_order_for_customer. cbn zeta.
  destruct (ensure_aware_aware p) as [op Hp].
  destruct (ensure_aware_aware d) as [od Hd].
  run_request.
  rewrite (datetime_le_instants _ _ _ _ Hp (datetime_now_utc_aware now)).
  rewrite (datetime_le_instants _ _ _ _ Hd Hp).
  assert (instant_of (datetime_now_utc now) = now) as ->.
  { unfold instant_of, datetime_now_utc, utc_instant, timezone_utc. cbn. lia. }
  case_bool_decide; [reflexivity|]. cbn.
  case_bool_decide; reflexivity.
Qed.

(** X7. On the customer path a pickup time that is not strictly after the
    current instant is refused first: the call raises
    ValidationError("Pickup time must be in the future") on field
    [pickup_time] and stores nothing, whatever the delivery time. *)
Theorem customer_create_needs_future_pickup now cid p d pr a s :
  instant_of (customer_service.ensure_aware p) ≤ now →
  customer_service.create_order_for_customer now cid p d pr a s
  = (s, Raise (ValidationError "Pickup time must be in the future"
                               (Some "pickup_time"))).
Proof.
  intros H. rewrite customer_create_unfold. by rewrite bool_decide_eq_true_2.
Qed.

Lemma customer_create_needs_future_pickup_witness :
  customer_service.create_order_for_customer (10 * hour) 1
    (naive (10 * hour)) (naive (9 * hour)) 1000%float 11 ex_store
  = (ex_store, Raise (ValidationError "Pickup time must be in the future"
                                      (Some "pickup_time"))).
Proof.
  apply (customer_create_needs_future_pickup (10 * hour) 1
           (naive (10 * hour)) (naive (9 * hour)) 1000%float 11 ex_store).
  vm_compute. discriminate.
Defined.



Lemma worker_create_unfold w cid p d pr s :
  worker_service.create_order_for_customer w cid p d pr s
  = match datetime_le d p with
    | Raise e => (s, Raise e)
    | Ok true =>
        (s, Raise (ValidationError "Delivery time must be after pickup time" None))
    | Ok false =>
        match customers s !! cid with
        | Some c =>
            if bool_decide (assigned_worker_id c = Some w)
            then match addresses c with
                 | [] => (s, Raise (IntegrityError
                                      "NOT NULL constraint failed: order.address_id"))
                 | a :: _ =>
                     (set_orders (insert (next_order_id s)
                                    (worker_order w cid p d pr a)) s,
                      Ok ({| order_message := "Order created by worker";
                             order_order_id := next_order_id s |}, 201))
                 end
            else (s, Raise (ValidationError
                              "Customer not assigned to this worker" None))
        | None => (s, Raise (ValidationError
                               "Customer not assigned to this worker" None))
        end
    end.
Proof.
  unfold worker_service.create_order_for_customer. run_request.
  destruct (datetime_le d p) as [[|]|e]; cbn; try reflexivity.
  destruct (customers s !! cid) as [c|]; cbn; [|reflexivity].
  case_bool_decide; cbn; [|reflexivity].
  by destruct (addresses c).
Qed.

(** X9. A worker creates orders only for customers assigned to that
    worker: with a delivery time after the pickup time, a customer that
    does not exist, is assigned to nobody or is assigned to another worker
    makes the call raise ValidationError("Customer not assigned to this
    worker") and store nothing. *)
Theorem worker_create_needs_assignment w cid p d pr s :
  datetime_le d p = Ok false →
  (customers s !! cid = None
   ∨ ∃ c, customers s !! cid = Some c ∧ assigned_worker_id c ≠ Some w) →
  worker_service.create_order_for_customer w cid p d pr s
  = (s, Raise (ValidationError "Customer not assigned to this worker" None)).
Proof.
  intros Ht Hc. rewrite worker_create_unfold, Ht.
  destruct Hc as [Hn|(c & Hc & Hw)].
  - by rewrite Hn.
  - rewrite Hc. by rewrite bool_decide_eq_false_2.
Qed.

Lemma worker_create_needs_assignment_witness :
  worker_service.create_order_for_customer 5 1
    (at_utc (10 * hour)) (at_utc (12 * hour)) 300%float ex_store
  = (ex_store,
     Raise (ValidationError "Customer not assigned to this worker" None)).
Proof.
  apply (worker_create_needs_assignment 5 1
           (at_utc (10 * hour)) (at_utc (12 * hour)) 300%float ex_store).
  - reflexivity.
  - right. exists (mk_Customer None [11]). split; [reflexivity | discriminate].
Defined.



(** ** Assigning a customer to a worker *)

Lemma assign_customer_to_worker_unfold w cid s :
  admin_service.assign_customer_to_worker w cid s
  = match customers s !! cid with
    | Some c =>
        (set_customers (insert cid (with_assigned_worker_id (Some w) c)) s,
         Ok ({| message_message :=
                  "Customer " +:+ pretty cid
                  +:+ " assigned to worker " +:+ pretty w |}, 200))
    | None => (s, Raise (NotFoundError "Customer not found"))
    end.
Proof.
  unfold admin_service.assign_customer_to_worker. run_request.
  unfold Customer_setattr, modify_store.
  destruct (customers s !! cid) as [c|] eqn:Hc; [|reflexivity].
  cbn. f_equal. unfold set_customers. f_equal.
  apply map_eq. intros j. destruct (decide (cid = j)) as [<-|Hne].
  - by rewrite lookup_alter_eq, lookup_insert_eq, Hc.
  - by rewrite lookup_alter_ne, lookup_insert_ne.
Qed.

(** X11. Assignment is last write wins: after a customer has been assigned
    to one worker, assigning the customer to another worker gives the
    store and the answer that the second assignment alone would have
    given; nothing of the first one is kept. *)
Theorem assign_customer_last_write_wins w1 w2 cid s s1 resp :
  admin_service.assign_customer_to_worker w1 cid s = (s1, Ok resp) →
  admin_service.assign_customer_to_worker w2 cid s1
  = admin_service.assign_customer_to_worker w2 cid s.
Proof.
  rewrite !assign_customer_to_worker_unfold.
  destruct (customers s !! cid) as [c|] eqn:Hc; [|discriminate].
  intros [= <- _]. cbn. rewrite lookup_insert_eq.
  f_equal. unfold set_customers; cbn. f_equal.
  by rewrite insert_insert_eq.
Qed.

Lemma assign_customer_last_write_wins_witness :
  admin_service.assign_customer_to_worker 5 1
    (fst (admin_service.assign_customer_to_worker 6 1 ex_store))
  = admin_service.assign_customer_to_worker 5 1 ex_store.
Proof.
  apply (assign_customer_last_write_wins 6 5 1 ex_store
           (fst (admin_service.assign_customer_to_worker 6 1 ex_store))
           ({| message_message := "Customer 1 assigned to worker 6" |}, 200)).
  reflexivity.
Defined.



(** ** The role gate *)

Lemma UserRole_value_inj a b : UserRole.value a = UserRole.value b → a = b.
Proof. by destruct a, b. Qed.

Lemma UserRole_getitem_value member :
  UserRole.getitem (UserRole.value member) = Some member.
Proof. by destruct member. Qed.

Lemma allowed_roles_configured roles :
  match configured_members roles with
  | Some ms =>
      role_decorator_util.allowed_roles roles
      = inr (List.map UserRole.value ms)
  | None =>
      ∃ bad, In bad roles
             ∧ UserRole.getitem (str_lower bad) = None
             ∧ role_decorator_util.allowed_roles roles = inl bad
  end.
Proof.
  unfold configured_members.
  induction roles as [|role roles IH]; [reflexivity|].
  cbn [mapM role_decorator_util.allowed_roles].
  destruct (UserRole.getitem (str_lower role)) as [member|] eqn:Hg;
    cbn [mbind option_bind mret option_ret].
  - destruct (mapM _ roles) as [ms|]; cbn [mbind option_bind mret option_ret].
    + rewrite IH. reflexivity.
    + destruct IH as (bad & Hin & Hbad & ->). exists bad.
      split; [by right|]. done.
  - exists role. split; [by left|]. done.
Qed.

Lemma existsb_role r ms :
  existsb (String.eqb r) (List.map UserRole.value ms) = true
  ↔ ∃ m, In m ms ∧ r = UserRole.value m.
Proof.
  rewrite existsb_exists. split.
  - intros (x & Hin & Heq). apply in_map_iff in Hin as (m & <- & Hin).
    apply String.eqb_eq in Heq. eauto.
  - intros (m & Hin & ->). exists (UserRole.value m). split.
    + by apply in_map.
    + apply String.eqb_refl.
Qed.

Lemma role_required_configured roles ms fn t s :
  configured_members roles = Some ms →
  role_decorator_util.role_required roles fn t s
  = match auth_service.token_role t with
    | Some r =>
        if existsb (String.eqb r) (List.map UserRole.value ms)
        then fn (auth_service.token_identity t) r s
        else (s, Ok (ErrorJson "Unauthorized", 403))
    | None => (s, Ok (ErrorJson "Unauthorized", 403))
    end.
Proof.
  intros Hc. pose proof (allowed_roles_configured roles) as H.
  rewrite Hc in H. unfold role_decorator_util.role_required. rewrite H.
  destruct (auth_service.token_role t) as [r|]; [|reflexivity].
  by destruct (existsb _ _).
Qed.

(** X13. With role names that all name a member (in any letter case), the
    gate lets a request through exactly when the [role] item of its token
    is the value of one of the configured members, and then hands the
    token's identity and that role string to the route; every other
    request, a token without [role] item included, gets 403 "Unauthorized"
    and the route does not run. The token's role is compared as it is:
    letter case counts there. *)
Theorem role_required_gate roles ms fn t s :
  configured_members roles = Some ms →
  (∀ m, In m ms → auth_service.token_role t = Some (UserRole.value m) →
     role_decorator_util.role_required roles fn t s
     = fn (auth_service.token_identity t) (UserRole.value m) s)
  ∧ ((∀ m, In m ms → auth_service.token_role t ≠ Some (UserRole.value m)) →
     role_decorator_util.role_required roles fn t s
     = (s, Ok (ErrorJson "Unauthorized", 403))).
Proof.
  intros Hc. rewrite (role_required_configured roles ms fn t s Hc). split.
  - intros m Hin ->.
    assert (existsb (String.eqb (UserRole.value m)) (List.map UserRole.value ms)
            = true) as ->; [|done].
    apply existsb_role. eauto.
  - intros Hno. destruct (auth_service.token_role t) as [r|]; [|done].
    destruct (existsb _ _) eqn:E; [|done].
    apply existsb_role in E as (m & Hin & ->). by destruct (Hno m Hin).
Qed.

Lemma role_required_gate_witness :
  (∀ m, In m [UserRole.worker; UserRole.admin] →
     Some "Admin" = Some (UserRole.value m) →
     role_decorator_util.role_required ["Worker"; "ADMIN"]
       (fun _ _ => ret (ErrorJson "reached" , 200))
       (auth_service.mk_access_token 9 (Some "Admin") 0) ex_store
     = ret (ErrorJson "reached", 200) ex_store)
  ∧ ((∀ m, In m [UserRole.worker; UserRole.admin] →
        Some "Admin" ≠ Some (UserRole.value m)) →
     role_decorator_util.role_required ["Worker"; "ADMIN"]
       (fun _ _ => ret (ErrorJson "reached", 200))
       (auth_service.mk_access_token 9 (Some "Admin") 0) ex_store
     = (ex_store, Ok (ErrorJson "Unauthorized", 403))).
Proof.
  apply (role_required_gate ["Worker"; "ADMIN"] [UserRole.worker; UserRole.admin]
           (fun _ _ => ret (ErrorJson "reached", 200))
           (auth_service.mk_access_token 9 (Some "Admin") 0) ex_store).
  reflexivity.
Defined.

Lemma allowed_roles_first_bad roles :
  configured_members roles = None →
  ∃ before bad after,
    roles = (before ++ bad :: after)%list
    ∧ (∀ r, In r before → is_Some (UserRole.getitem (str_lower r)))
    ∧ UserRole.getitem (str_lower bad) = None
    ∧ role_decorator_util.allowed_roles roles = inl bad.
Proof.
  unfold configured_members.
  induction roles as [|role roles IH]; [discriminate|].
  cbn [mapM role_decorator_util.allowed_roles].
  destruct (UserRole.getitem (str_lower role)) as [member|] eqn:Hg;
    cbn [mbind option_bind mret option_ret].
  - destruct (mapM _ roles) as [ms|]; cbn [mbind option_bind mret option_ret];
      [discriminate|].
    intros _. destruct (IH eq_refl) as (before & bad & after & -> & Hok & Hbad & ->).
    exists (role :: before), bad, after. split; [reflexivity|].
    split; [|done].
    intros r [<-|Hin]; [by rewrite Hg | by apply Hok].
  - intros _. exists [], role, roles. split; [reflexivity|].
    split; [by intros r []|]. done.
Qed.

(** X14. One role name that names no member disables the route: every
    request, whatever its token, gets 400 "Invalid role '...'" naming the
    first such name in the order of the configuration, the store is
    untouched and the route does not run. *)
Theorem role_required_bad_configuration roles :
  configured_members roles = None →
  ∃ before bad after,
    roles = (before ++ bad :: after)%list
    ∧ (∀ r, In r before → is_Some (UserRole.getitem (str_lower r)))
    ∧ UserRole.getitem (str_lower bad) = None
    ∧ ∀ fn t s,
        role_decorator_util.role_required roles fn t s
        = (s, Ok (ErrorJson ("Invalid role '" +:+ bad +:+ "'"), 400)).
Proof.
  intros Hc.
  destruct (allowed_roles_first_bad roles Hc)
    as (before & bad & after & Hroles & Hok & Hbad & Hrun).
  exists before, bad, after. repeat (split; [done|]).
  intros fn t s. unfold role_decorator_util.role_required. by rewrite Hrun.
Qed.

Lemma role_required_bad_configuration_witness :
  ∃ before bad after,
    ["customer"; "Boss"; "manager"] = (before ++ bad :: after)%list
    ∧ (∀ r, In r before → is_Some (UserRole.getitem (str_lower r)))
    ∧ UserRole.getitem (str_lower bad) = None
    ∧ ∀ fn t s,
        role_decorator_util.role_required ["customer"; "Boss"; "manager"] fn t s
        = (s, Ok (ErrorJson ("Invalid role '" +:+ bad +:+ "'"), 400)).
Proof.
  apply (role_required_bad_configuration ["customer"; "Boss"; "manager"]).
  reflexivity.
Defined.

(** With the names "customer", "Boss", "manager" it is "Boss" that the
    answer names. *)
Example role_required_names_first_bad fn t s :
  role_decorator_util.role_required ["customer"; "Boss"; "manager"] fn t s
  = (s, Ok (ErrorJson "Invalid role 'Boss'", 400)).
Proof. reflexivity. Qed.

(** ** Logging in *)

Section login_facts.
Variable check_password_hash : string → string → bool.

(** X15. A login that answers with a token answers 200 for a stored user
    with that email whose stored hash accepts the password, changes
    nothing, and the token carries that user's id and role: at every gate
    with valid role names it passes exactly when the user's role is among
    them, and the route then receives the user's id. *)
Theorem login_token_opens_own_role
    email password s s' msg t id name email' role code :
  auth_service.login_user check_password_hash email password s
  = (s', Ok (auth_service.LoginOk msg t id name email' role, code)) →
  s' = s ∧ code = 200
  ∧ ∃ u,
      users s !! id = Some u
      ∧ user_email u = email
      ∧ check_password_hash (user_password u) password = true
      ∧ t = token_of id u
      ∧ ∀ roles ms fn s0,
          configured_members roles = Some ms →
          role_decorator_util.role_required roles fn t s0
          = if bool_decide (user_role u ∈ ms)
            then fn id (UserRole.value (user_role u)) s0
            else (s0, Ok (ErrorJson "Unauthorized", 403)).
Proof.
  unfold auth_service.login_user, auth_service.User_query_first_by_email.
  run_request.
  destruct (List.find _ _) as [[id' u]|] eqn:Hfind; [|discriminate].
  unfold auth_service.check_password.
  destruct (check_password_hash (user_password u) password) eqn:Hpw; cbn;
    [|discriminate].
  intros [= <- <- <- <- <- <- <- <-].
  apply find_some in Hfind as [Hin Hmail]. cbn in Hmail.
  apply String.eqb_eq in Hmail.
  apply list_elem_of_In, elem_of_map_to_list in Hin.
  split; [done|]. split; [done|]. exists u.
  repeat (split; [done|]).
  intros roles ms fn s0 Hc.
  rewrite (role_required_configured roles ms fn _ s0 Hc). cbn.
  destruct (existsb _ _) eqn:E.
  - apply existsb_role in E as (m & Hm & Heq).
    apply UserRole_value_inj in Heq as <-.
    rewrite bool_decide_eq_true_2; [done|]. by apply list_elem_of_In.
  - rewrite bool_decide_eq_false_2; [done|]. intros Hm.
    apply list_elem_of_In in Hm.
    assert (existsb (String.eqb (UserRole.value (user_role u)))
              (List.map UserRole.value ms) = true) as E'
      by (apply existsb_role; eauto).
    congruence.
Qed.

End login_facts.

Lemma login_token_opens_own_role_witness :
  fst (auth_service.login_user plain_check "bea@example.pk" "pbkdf2" ex_store)
  = ex_store ∧ (200 : Z) = 200
  ∧ ∃ u,
      users ex_store !! 2 = Some u
      ∧ user_email u = "bea@example.pk"
      ∧ plain_check (user_password u) "pbkdf2" = true
      ∧ token_of 2 bea = token_of 2 u
      ∧ ∀ roles ms fn s0,
          configured_members roles = Some ms →
          role_decorator_util.role_required roles fn (token_of 2 bea) s0
          = if bool_decide (user_role u ∈ ms)
            then fn 2 (UserRole.value (user_role u)) s0
            else (s0, Ok (ErrorJson "Unauthorized", 403)).
Proof.
  apply (login_token_opens_own_role plain_check "bea@example.pk" "pbkdf2"
           ex_store
           (fst (auth_service.login_user plain_check "bea@example.pk" "pbkdf2"
                   ex_store))
           "Login successful" (token_of 2 bea) 2 (Some "Bea")
           "bea@example.pk" "customer" 200).
  reflexivity.
Defined.

(** ** The routes *)

Lemma role_required_one name member fn t s :
  configured_members [name] = Some [member] →
  role_decorator_util.role_required [name] fn t s
  = match auth_service.token_role t with
    | Some r =>
        if String.eqb r (UserRole.value member)
        then fn (auth_service.token_identity t) r s
        else (s, Ok unauthorized)
    | None => (s, Ok unauthorized)
    end.
Proof.
  intros Hc. rewrite (role_required_configured [name] [member] fn t s Hc).
  destruct (auth_service.token_role t) as [r|]; [|reflexivity].
  cbn [List.map existsb]. by rewrite orb_false_r.
Qed.

(** X16. The customer's cancel route never fails with an exception: it
    answers 200 with the cancellation, 400 with an error message, or 403;
    and whenever the answer is not 200 the store is as it was. *)
Theorem customer_cancel_route_answers
    fee_percentage karachi_utcoffset now order_id t s :
  ∃ body code,
    customer_routes.cancel_order_route fee_percentage karachi_utcoffset
      now order_id t s
    = (if bool_decide (code = 200)
       then fst (cancel_order_util.cancel_order fee_percentage karachi_utcoffset
                   now (auth_service.token_identity t) order_id
                   (RoleStr "customer") s)
       else s,
       Ok (body, code))
    ∧ (code = 200 ∨ code = 400 ∨ code = 403)
    ∧ (code = 200 ↔ ∃ r, body = CancelJson r).
Proof.
  unfold customer_routes.cancel_order_route.
  rewrite (role_required_one "customer" UserRole.customer) by reflexivity.
  destruct (auth_service.token_role t) as [r|].
  2: { eexists _, 403. split; [reflexivity|]. split; [auto|].
       split; [discriminate|]. intros [? [=]]. }
  destruct (String.eqb_spec r (UserRole.value UserRole.customer)) as [->|_].
  2: { eexists _, 403. split; [reflexivity|]. split; [auto|].
       split; [discriminate|]. intros [? [=]]. }
  unfold try_except, with_body. run_request. cbn [UserRole.value].
  destruct (cancel_order_outcome fee_percentage karachi_utcoffset now
              (auth_service.token_identity t) order_id (RoleStr "customer") s);
    cbn [fst snd].
  1-3: eexists _, 400; split; [reflexivity|]; split; [auto|];
       split; [discriminate|]; intros [? [=]].
  eexists _, 200. split; [reflexivity|]. split; [auto|]. split; eauto.
Qed.

(** X17. Through the customer's cancel route the order is looked up by its
    id alone: with a customer token whose user row exists, every stored
    order whose pickup time has not passed is cancelled, whoever its
    customer is. *)
Theorem customer_cancel_route_any_order
    fee_percentage karachi_utcoffset now order_id t s u o :
  auth_service.token_role t = Some "customer" →
  users s !! auth_service.token_identity t = Some u →
  orders s !! order_id = Some o →
  now ≤ pickup_instant karachi_utcoffset o →
  ∃ s' r,
    customer_routes.cancel_order_route fee_percentage karachi_utcoffset
      now order_id t s = (s', Ok (CancelJson r, 200))
    ∧ orders s' !! order_id
      = Some (cancelled_with
                (fee_due fee_percentage
                   (pickup_instant karachi_utcoffset o - now) (price o)) o).
Proof.
  intros Hrole Hu Ho Hle.
  unfold customer_routes.cancel_order_route.
  rewrite (role_required_one "customer" UserRole.customer) by reflexivity.
  rewrite Hrole. cbn [UserRole.value]. rewrite String.eqb_refl.
  unfold try_except, with_body. run_request.
  rewrite (cancel_order_resolved _ _ _ _ _ _ _ u o) by done.
  rewrite bool_decide_eq_false_2 by lia. cbn.
  eexists _, _. split; [reflexivity|].
  cbn [orders set_orders]. by rewrite lookup_alter_eq, Ho.
Qed.

Lemma customer_cancel_route_any_order_witness :
  ∃ s' r,
    customer_routes.cancel_order_route 10%float pkt (8 * hour) 7 (token_of 1 ali)
      ex_store = (s', Ok (CancelJson r, 200))
    ∧ orders s' !! 7
      = Some (cancelled_with
                (fee_due 10%float
                   (pickup_instant pkt (order_of_bea None OrderStatus.created)
                    - 8 * hour)
                   (price (order_of_bea None OrderStatus.created)))
                (order_of_bea None OrderStatus.created)).
Proof.
  apply (customer_cancel_route_any_order 10%float pkt (8 * hour) 7 (token_of 1 ali)
           ex_store ali (order_of_bea None OrderStatus.created)).
  - reflexivity.
  - reflexivity.
  - reflexivity.
  - vm_compute. discriminate.
Defined.

(** X18. The routes are closed to the other roles: the token of a user who
    is not a worker gets 403 on the three worker routes, that of a user
    who is not a customer gets 403 on the customer's cancel route, that of
    a user who is not an admin gets 403 on the admin's cancel route and on
    the assignment route; in each case the store is untouched. *)
Theorem routes_refuse_other_roles
    fee_percentage karachi_utcoffset now order_id status' w cid id u s :
  let t := token_of id u in
  (user_role u ≠ UserRole.worker →
     worker_routes.get_unclaimed_orders t s = (s, Ok unauthorized)
     ∧ worker_routes.claim_order_route order_id t s = (s, Ok unauthorized)
     ∧ worker_routes.update_order_status_route order_id status' t s
       = (s, Ok unauthorized))
  ∧ (user_role u ≠ UserRole.customer →
     customer_routes.cancel_order_route fee_percentage karachi_utcoffset
       now order_id t s = (s, Ok unauthorized))
  ∧ (user_role u ≠ UserRole.admin →
     admin_routes.cancel_order_route fee_percentage karachi_utcoffset
       now order_id t s = (s, Ok unauthorized)
     ∧ admin_routes.assign_customer w cid t s = (s, Ok unauthorized)).
Proof.
  intros t. subst t.
  unfold worker_routes.get_unclaimed_orders, worker_routes.claim_order_route,
    worker_routes.update_order_status_route,
    customer_routes.cancel_order_route, admin_routes.cancel_order_route,
    admin_routes.assign_customer.
  rewrite !(role_required_one "worker" UserRole.worker) by reflexivity.
  rewrite !(role_required_one "customer" UserRole.customer) by reflexivity.
  rewrite !(role_required_one "admin" UserRole.admin) by reflexivity.
  unfold token_of, auth_service.generate_access_token; cbn [auth_service.token_role].
  destruct (user_role u); cbn [UserRole.value];
    repeat split; intros; first [done | repeat split; reflexivity].
Qed.

(** X19. The two routes that read an item of the JSON body refuse a
    request without it before looking anything up: for a worker, a missing
    or empty [status] is 400 "Status is required"; for an admin, a missing
    [customer_id], or the id 0, is 400 "customer_id is required". *)
Theorem routes_require_their_item order_id w t s :
  (auth_service.token_role t = Some "worker" →
     worker_routes.update_order_status_route order_id None t s
     = (s, Ok (ErrorJson "Status is required", 400))
     ∧ worker_routes.update_order_status_route order_id (Some EmptyString) t s
       = (s, Ok (ErrorJson "Status is required", 400)))
  ∧ (auth_service.token_role t = Some "admin" →
     admin_routes.assign_customer w None t s
     = (s, Ok (ErrorJson "customer_id is required", 400))
     ∧ admin_routes.assign_customer w (Some 0) t s
       = (s, Ok (ErrorJson "customer_id is required", 400))).
Proof.
  unfold worker_routes.update_order_status_route, admin_routes.assign_customer.
  rewrite !(role_required_one "worker" UserRole.worker) by reflexivity.
  rewrite !(role_required_one "admin" UserRole.admin) by reflexivity.
  split; intros ->; cbn [UserRole.value]; rewrite String.eqb_refl; done.
Qed.

(** ** After a claim *)

(** X20. The worker who claimed an order, and nobody else, can update its
    status: after a successful claim the claimant's update to any of the
    seven statuses succeeds and sets it, and an update by any other worker
    raises NotFoundError and changes nothing. *)
Theorem claimed_order_updatable s w id s' resp :
  worker_service.claim_order w id s = (s', Ok resp) →
  (∀ member,
     ∃ s'' r,
       worker_service.update_order_status w id (OrderStatus.value member) s'
       = (s'', Ok (r, 200))
       ∧ status <$> orders s'' !! id = Some member)
  ∧ (∀ w2 st, w2 ≠ w →
       worker_service.update_order_status w2 id st s'
       = (s', Raise (NotFoundError
                       "Order not found or not assigned to this worker"))).
Proof.
  rewrite claim_order_unfold.
  destruct (orders s !! id) as [o|] eqn:Ho; [|discriminate].
  case_bool_decide; [|discriminate].
  intros [= <- _].
  assert (orders (set_orders (alter (claimed_by w) id) s) !! id
          = Some (claimed_by w o)) as Hnew.
  { cbn. by rewrite lookup_alter_eq, Ho. }
  split.
  - intros member. rewrite update_order_status_unfold, Hnew.
    rewrite bool_decide_eq_true_2 by done.
    assert (str_lower (OrderStatus.value member) = OrderStatus.value member)
      as -> by by destruct member.
    rewrite getitem_value. eexists _, _. split; [reflexivity|].
    cbn [orders set_orders] in Hnew |- *. by rewrite lookup_alter_eq, Hnew.
  - intros w2 st Hne. rewrite update_order_status_unfold, Hnew.
    rewrite bool_decide_eq_false_2; [done|]. cbn. congruence.
Qed.

Lemma claimed_order_updatable_witness :
  (∀ member,
     ∃ s'' r,
       worker_service.update_order_status 5 7 (OrderStatus.value member)
         (fst (worker_service.claim_order 5 7 ex_store))
       = (s'', Ok (r, 200))
       ∧ status <$> orders s'' !! 7 = Some member)
  ∧ (∀ w2 st, w2 ≠ 5 →
       worker_service.update_order_status w2 7 st
         (fst (worker_service.claim_order 5 7 ex_store))
       = (fst (worker_service.claim_order 5 7 ex_store),
          Raise (NotFoundError
                   "Order not found or not assigned to this worker"))).
Proof.
  apply (claimed_order_updatable ex_store 5 7
           (fst (worker_service.claim_order 5 7 ex_store))
           ({| order_message := "Order claimed successfully";
               order_order_id := 7 |}, 200)).
  reflexivity.
Defined.

(** ** The fee over time *)

(** X21. Waiting never makes a cancellation cheaper: for a fee percentage
    between 0 and 100 and a finite non-negative price, of two
    cancellations of the same order that both pass the cutoff, the later
    one is charged at least the fee of the earlier one. *)
Theorem cancel_fee_never_decreases
    fee_percentage karachi_utcoffset now1 now2 user_id order_id role s u o :
  users s !! user_id = Some u →
  orders s !! order_id = Some o →
  cancel_order_util.order_filter user_id role o = true →
  (0 <=? fee_percentage)%float = true →
  (fee_percentage <=? 100)%float = true →
  (0 <=? price o)%float = true →
  (price o <? infinity)%float = true →
  now1 ≤ now2 →
  now2 ≤ pickup_instant karachi_utcoffset o →
  ∃ s1 r1 s2 r2,
    cancel_order_util.cancel_order fee_percentage karachi_utcoffset
      now1 user_id order_id role s = (s1, Ok (r1, 200))
    ∧ cancel_order_util.cancel_order fee_percentage karachi_utcoffset
        now2 user_id order_id role s = (s2, Ok (r2, 200))
    ∧ (cancel_cancellation_fee r1 <=? cancel_cancellation_fee r2)%float = true.
Proof.
  intros Hu Ho Hf Hfp0 Hfp100 Hpr Hfin H12 H2.
  rewrite !(cancel_order_resolved _ _ _ _ _ _ _ u o) by done.
  rewrite !bool_decide_eq_false_2 by lia. cbn zeta.
  eexists _, _, _, _. split; [reflexivity|]. split; [reflexivity|].
  cbn [cancel_cancellation_fee]. unfold fee_due.
  destruct (percentage_of_price_bounds fee_percentage (price o))
    as [Hfee _]; try done.
  destruct (Z.leb_spec (pickup_instant karachi_utcoffset o - now1)
              (timedelta_hours 1));
    destruct (Z.leb_spec (pickup_instant karachi_utcoffset o - now2)
                (timedelta_hours 1)); try lia.
  - rewrite leb_spec in *. by apply SFleb_refl_of_nonneg.
  - done.
  - reflexivity.
Qed.

Lemma cancel_fee_never_decreases_witness :
  ∃ s1 r1 s2 r2,
    cancel_order_util.cancel_order 10%float pkt (8 * hour) 2 7
      (RoleMember UserRole.customer) ex_store = (s1, Ok (r1, 200))
    ∧ cancel_order_util.cancel_order 10%float pkt (9 * hour + 1800000000) 2 7
        (RoleMember UserRole.customer) ex_store = (s2, Ok (r2, 200))
    ∧ (cancel_cancellation_fee r1 <=? cancel_cancellation_fee r2)%float = true.
Proof.
  apply (cancel_fee_never_decreases 10%float pkt (8 * hour) (9 * hour + 1800000000)
           2 7 (RoleMember UserRole.customer) ex_store bea
           (order_of_bea None OrderStatus.created)).
  - reflexivity.
  - reflexivity.
  - reflexivity.
  - reflexivity.
  - reflexivity.
  - reflexivity.
  - reflexivity.
  - vm_compute. discriminate.
  - vm_compute. discriminate.
Defined.

(** ** The order listings *)

Section listings.
Variable by_created_at_desc : list (Z * Order) → list (Z * Order).
Hypothesis by_created_at_desc_perm : ∀ l, Permutation (by_created_at_desc l) l.

(** X22. [list_customer_orders] shows a customer that customer's orders
    and no others: it answers 200 without touching the store, with one row
    for each stored order whose customer is the caller and no row for any
    other order. *)
Theorem list_customer_orders_own_only cid s :
  ∃ rows,
    customer_service.list_customer_orders by_created_at_desc cid s
    = (s, Ok (rows, 200))
    ∧ NoDup (List.map row_order_id rows)
    ∧ ∀ row, In row rows
        ↔ ∃ id o, orders s !! id = Some o ∧ customer_id o = cid
                  ∧ row = customer_row_of id o.
Proof.
  unfold customer_service.list_customer_orders. run_request. cbn zeta.
  eexists. split; [reflexivity|]. split.
  - rewrite List.map_map. cbn [row_order_id].
    apply (proj2 (NoDup_Permutation_proper _ _
                    (Permutation_map fst (by_created_at_desc_perm _)))).
    apply (NoDup_map_filter fst), NoDup_fst_map_to_list.
  - intros row. rewrite in_map_iff. split.
    + intros ([id o] & <- & Hin).
      apply (Permutation_in _ (by_created_at_desc_perm _)) in Hin.
      apply filter_In in Hin as [Hin Hc]. cbn in Hc.
      apply bool_decide_eq_true in Hc.
      apply list_elem_of_In, elem_of_map_to_list in Hin.
      exists id, o. done.
    + intros (id & o & Ho & Hc & ->). exists (id, o). split; [done|].
      apply (Permutation_in _ (Permutation_sym (by_created_at_desc_perm _))).
      apply filter_In. split.
      * by apply list_elem_of_In, elem_of_map_to_list.
      * cbn. by apply bool_decide_eq_true.
Qed.

(** X23. [list_all_orders] shows every stored order exactly once, with its
    id, customer, worker, times, status, price and cancellation fee, and
    leaves the store untouched. *)
Theorem list_all_orders_complete s :
  ∃ rows,
    admin_service.list_all_orders by_created_at_desc s = (s, Ok (rows, 200))
    ∧ NoDup (List.map admin_row_order_id rows)
    ∧ ∀ row, In row rows
        ↔ ∃ id o, orders s !! id = Some o ∧ row = admin_row_of id o.
Proof.
  unfold admin_service.list_all_orders. run_request. cbn zeta.
  eexists. split; [reflexivity|]. split.
  - rewrite List.map_map. cbn [admin_row_order_id].
    apply (proj2 (NoDup_Permutation_proper _ _
                    (Permutation_map fst (by_created_at_desc_perm _)))).
    apply NoDup_fst_map_to_list.
  - intros row. rewrite in_map_iff. split.
    + intros ([id o] & <- & Hin).
      apply (Permutation_in _ (by_created_at_desc_perm _)) in Hin.
      apply list_elem_of_In, elem_of_map_to_list in Hin.
      exists id, o. done.
    + intros (id & o & Ho & ->). exists (id, o). split; [done|].
      apply (Permutation_in _ (Permutation_sym (by_created_at_desc_perm _))).
      by apply list_elem_of_In, elem_of_map_to_list.
Qed.

End listings.

Lemma list_customer_orders_own_only_witness :
  ∃ rows,
    customer_service.list_customer_orders (fun l => l) 2 ex_store
    = (ex_store, Ok (rows, 200))
    ∧ NoDup (List.map row_order_id rows)
    ∧ ∀ row, In row rows
        ↔ ∃ id o, orders ex_store !! id = Some o ∧ customer_id o = 2
                  ∧ row = customer_row_of id o.
Proof.
  apply (list_customer_orders_own_only (fun l => l)).
  intros l. reflexivity.
Defined.

Lemma list_all_orders_complete_witness :
  ∃ rows,
    admin_service.list_all_orders (fun l => l) ex_store
    = (ex_store, Ok (rows, 200))
    ∧ NoDup (List.map admin_row_order_id rows)
    ∧ ∀ row, In row rows
        ↔ ∃ id o, orders ex_store !! id = Some o ∧ row = admin_row_of id o.
Proof.
  apply (list_all_orders_complete (fun l => l)).
  intros l. reflexivity.
Defined.

(** ** The admin's creation path *)


